(** * smart_web_scraper: a shallow embedding of [SmartWebScraper]

    The development follows [smart_web_scraper.py]: Python [str] values are
    [string]s (characters are code points below 256), the visited set is a
    [gset string], the queue a [list string].  The libraries the scraper calls
    ([requests], Selenium, BeautifulSoup, [RobotFileParser], the CSV sink) are
    the crawl's collaborators: their answers are parameters of the model, and
    every call the scraper makes is recorded in an event log. *)

From Stdlib Require Import Ascii String.
From stdpp Require Import base list strings gmap.

Set Warnings "-register-all,-clear-no-such-hyp".

(** ** Python string operations used by the scraper and by [urllib.parse] *)

Module PyStr.

(** [s.startswith(p)] *)
Definition startswith (s p : string) : bool := String.prefix p s.

(** [not s]: the empty string is the only falsy string. *)
Definition falsy (s : string) : bool :=
  match s with EmptyString => true | _ => false end.

(** [c in s] *)
Fixpoint contains (c : ascii) (s : string) : bool :=
  match s with
  | EmptyString => false
  | String a s' => if Ascii.eqb a c then true else contains c s'
  end.

(** [s.find(c)], counted from the start of [s]; [None] is Python's [-1]. *)
Fixpoint find (c : ascii) (s : string) : option nat :=
  match s with
  | EmptyString => None
  | String a s' => if Ascii.eqb a c then Some 0 else S <$> find c s'
  end.

(** [s[:n]] and [s[n:]] *)
Fixpoint take (n : nat) (s : string) : string :=
  match n, s with
  | S n', String a s' => String a (take n' s')
  | _, _ => EmptyString
  end.

Fixpoint drop (n : nat) (s : string) : string :=
  match n, s with
  | S n', String _ s' => drop n' s'
  | _, _ => s
  end.

(** [s.find(c, start)] *)
Definition find_from (c : ascii) (start : nat) (s : string) : option nat :=
  (fun i => start + i) <$> find c (drop start s).

(** [s.rfind(c)] *)
Fixpoint rfind (c : ascii) (s : string) : option nat :=
  match s with
  | EmptyString => None
  | String a s' =>
      match rfind c s' with
      | Some i => Some (S i)
      | None => if Ascii.eqb a c then Some 0 else None
      end
  end.

(** [s.lstrip(chars)], the characters given as a predicate. *)
Fixpoint lstrip (p : ascii -> bool) (s : string) : string :=
  match s with
  | EmptyString => EmptyString
  | String a s' => if p a then lstrip p s' else s
  end.

(** [s.rstrip(chars)] *)
Fixpoint rstrip (p : ascii -> bool) (s : string) : string :=
  match s with
  | EmptyString => EmptyString
  | String a s' =>
      match rstrip p s' with
      | EmptyString => if p a then EmptyString else String a EmptyString
      | r => String a r
      end
  end.

(** [s.strip(chars)] *)
Definition strip (p : ascii -> bool) (s : string) : string :=
  rstrip p (lstrip p s).

(** [s.replace(c, "")] for every character [c] satisfying [p]. *)
Fixpoint remove (p : ascii -> bool) (s : string) : string :=
  match s with
  | EmptyString => EmptyString
  | String a s' => if p a then remove p s' else String a (remove p s')
  end.

(** [all(p(c) for c in s)] *)
Fixpoint all (p : ascii -> bool) (s : string) : bool :=
  match s with
  | EmptyString => true
  | String a s' => p a && all p s'
  end.

(** [s.split(c)]: never empty, [n] separators give [n + 1] fields. *)
Fixpoint split (c : ascii) (s : string) : list string :=
  match s with
  | EmptyString => [EmptyString]
  | String a s' =>
      if Ascii.eqb a c then EmptyString :: split c s'
      else match split c s' with
           | f :: fs => String a f :: fs
           | [] => [String a EmptyString]
           end
  end.

(** [s.split(c, 1)] when [c in s]: the text before and after the first [c]. *)
Definition split1 (c : ascii) (s : string) : string * string :=
  match find c s with
  | Some i => (take i s, drop (S i) s)
  | None => (s, EmptyString)
  end.

(** [sep.join(l)] *)
Definition join (sep : string) (l : list string) : string := String.concat sep l.

(** [s in l] for a list of strings. *)
Definition mem (s : string) (l : list string) : bool := existsb (String.eqb s) l.

Definition is_upper (c : ascii) : bool :=
  let n := nat_of_ascii c in (65 <=? n) && (n <=? 90).
Definition is_lower (c : ascii) : bool :=
  let n := nat_of_ascii c in (97 <=? n) && (n <=? 122).
Definition is_digit (c : ascii) : bool :=
  let n := nat_of_ascii c in (48 <=? n) && (n <=? 57).

(** [c.isascii() and c.isalpha()] *)
Definition is_ascii_alpha (c : ascii) : bool := is_upper c || is_lower c.

(** [s.lower()] on ASCII letters (the only ones a scheme can hold). *)
Definition lower_char (c : ascii) : ascii :=
  if is_upper c then ascii_of_nat (nat_of_ascii c + 32) else c.
Fixpoint lower (s : string) : string :=
  match s with
  | EmptyString => EmptyString
  | String a s' => String (lower_char a) (lower s')
  end.

End PyStr.

(** ** [urllib.parse]

    The scraper calls [urllib.parse.urlparse] and [urllib.parse.urljoin].
    They are library code, embedded here after CPython 3.11's
    [urllib/parse.py] (the [str] path, [allow_fragments=True]).  A result of
    [None] stands for the [ValueError] the library raises on a malformed
    bracketed host.  Whether a bracketed host is an IPv6 address is decided by
    the [ipaddress] module, which stays a parameter.  [_checknetloc] only
    raises when NFKC normalisation of the host produces one of [/?#@:], which
    no code point below 256 does, so it is the identity here. *)

Module Urllib.
Import PyStr.

Definition uses_relative : list string :=
  [""; "ftp"; "http"; "gopher"; "nntp"; "imap"; "wais"; "file"; "https";
   "shttp"; "mms"; "prospero"; "rtsp"; "rtspu"; "sftp"; "svn"; "svn+ssh";
   "ws"; "wss"].

Definition uses_netloc : list string :=
  [""; "ftp"; "http"; "gopher"; "nntp"; "telnet"; "imap"; "wais"; "file";
   "mms"; "https"; "shttp"; "snews"; "prospero"; "rtsp"; "rtspu"; "rsync";
   "svn"; "svn+ssh"; "sftp"; "nfs"; "git"; "git+ssh"; "ws"; "wss"].

Definition uses_params : list string :=
  [""; "ftp"; "hdl"; "prospero"; "http"; "imap"; "https"; "shttp"; "rtsp";
   "rtspu"; "sip"; "sips"; "mms"; "sftp"; "tel"].

(** [c in scheme_chars] *)
Definition scheme_char (c : ascii) : bool :=
  is_ascii_alpha c || is_digit c || contains c "+-.".

(** [c in _WHATWG_C0_CONTROL_OR_SPACE] *)
Definition c0_control_or_space (c : ascii) : bool := nat_of_ascii c <=? 32.

(** [c in _UNSAFE_URL_BYTES_TO_REMOVE]: tab, carriage return, line feed. *)
Definition unsafe_url_byte (c : ascii) : bool :=
  let n := nat_of_ascii c in (n =? 9) || (n =? 13) || (n =? 10).

Record SplitResult := mkSplit
  { s_scheme : string; s_netloc : string; s_path : string;
    s_query : string; s_fragment : string }.

Record ParseResult := mkParse
  { scheme : string; netloc : string; path : string; params : string;
    query : string; fragment : string }.

(** [s.partition(c)]: the text before [c], whether [c] was found, the rest. *)
Definition partition (c : ascii) (s : string) : string * bool * string :=
  match find c s with
  | Some i => (take i s, true, drop (S i) s)
  | None => (s, false, EmptyString)
  end.

(** [s.rpartition(c)[2]] *)
Definition rpartition_tail (c : ascii) (s : string) : string :=
  match rfind c s with
  | Some i => drop (S i) s
  | None => s
  end.

Definition is_hex (c : ascii) : bool :=
  is_digit c || contains c "abcdefABCDEF".

(** [re.match(r"\Av[a-fA-F0-9]+\..+\Z", hostname)] for a [hostname] that
    starts with [v]. *)
Definition ipvfuture_ok (hostname : string) : bool :=
  let after_v := drop 1 hostname in
  let rest := lstrip is_hex after_v in
  negb (String.eqb rest after_v)
  && startswith rest "."
  && negb (falsy (drop 1 rest))
  && negb (contains "010"%char (drop 1 rest)).

Definition min_delim (c : ascii) (start : nat) (url : string) (delim : nat) : nat :=
  match find_from c start url with
  | Some wdelim => Nat.min delim wdelim
  | None => delim
  end.

Definition _splitnetloc (url : string) (start : nat) : string * string :=
  let delim := String.length url in
  let delim := min_delim "/" start url delim in
  let delim := min_delim "?" start url delim in
  let delim := min_delim "#" start url delim in
  (take (delim - start) (drop start url), drop delim url).

Definition _splitparams (url : string) : string * string :=
  let cut (i : nat) := (take i url, drop (S i) url) in
  match rfind "/" url with
  | Some j =>
      match find_from ";" j url with
      | Some i => cut i
      | None => (url, EmptyString)
      end
  | None =>
      match find ";" url with
      | Some i => cut i
      | None => (take (String.length url - 1) url, url)
      end
  end.

Section Ipaddress.

(** [ipaddress.ip_address(hostname)] returns an [IPv6Address]. *)
Variable ip_address_is_v6 : string -> bool.

Definition _check_bracketed_host (hostname : string) : bool :=
  if startswith hostname "v" then ipvfuture_ok hostname
  else ip_address_is_v6 hostname.

Definition _check_bracketed_netloc (netloc : string) : bool :=
  let hostname_and_port := rpartition_tail "@" netloc in
  let '(before_bracket, have_open_br, bracketed) := partition "[" hostname_and_port in
  if have_open_br then
    if negb (falsy before_bracket) then false
    else
      let '(hostname, _, port) := partition "]" bracketed in
      if negb (falsy port) && negb (startswith port ":") then false
      else _check_bracketed_host hostname
  else
    let '(hostname, _, _) := partition ":" hostname_and_port in
    _check_bracketed_host hostname.

Definition netloc_brackets_ok (netloc : string) : bool :=
  match contains "[" netloc, contains "]" netloc with
  | true, false | false, true => false
  | true, true => _check_bracketed_netloc netloc
  | false, false => true
  end.

Definition urlsplit (url scheme : string) : option SplitResult :=
  let url := lstrip c0_control_or_space url in
  let scheme := strip c0_control_or_space scheme in
  let url := remove unsafe_url_byte url in
  let scheme := remove unsafe_url_byte scheme in
  let '(scheme, url) :=
    match find ":" url, url with
    | Some (S i), String c0 _ =>
        if is_ascii_alpha c0 && all scheme_char (take (S i) url)
        then (lower (take (S i) url), drop (S (S i)) url)
        else (scheme, url)
    | _, _ => (scheme, url)
    end in
  let '(netloc, url) :=
    if String.eqb (take 2 url) "//" then _splitnetloc url 2
    else (EmptyString, url) in
  if netloc_brackets_ok netloc then
    let '(url, fragment) :=
      if contains "#" url then split1 "#" url else (url, EmptyString) in
    let '(url, query) :=
      if contains "?" url then split1 "?" url else (url, EmptyString) in
    Some (mkSplit scheme netloc url query fragment)
  else None.

Definition urlparse (url scheme : string) : option ParseResult :=
  match urlsplit url scheme with
  | Some (mkSplit scheme netloc url query fragment) =>
      let '(url, params) :=
        if mem scheme uses_params && contains ";" url then _splitparams url
        else (url, EmptyString) in
      Some (mkParse scheme netloc url params query fragment)
  | None => None
  end.

Definition urlunsplit (c : SplitResult) : string :=
  let '(mkSplit scheme netloc url query fragment) := c in
  let url :=
    if negb (falsy netloc)
       || (negb (falsy scheme) && mem scheme uses_netloc
           && negb (String.eqb (take 2 url) "//"))
    then
      let url :=
        if negb (falsy url) && negb (String.eqb (take 1 url) "/")
        then "/" +:+ url else url in
      "//" +:+ netloc +:+ url
    else url in
  let url := if negb (falsy scheme) then scheme +:+ ":" +:+ url else url in
  let url := if negb (falsy query) then url +:+ "?" +:+ query else url in
  let url := if negb (falsy fragment) then url +:+ "#" +:+ fragment else url in
  url.

Definition urlunparse (c : ParseResult) : string :=
  let '(mkParse scheme netloc url params query fragment) := c in
  let url := if negb (falsy params) then url +:+ ";" +:+ params else url in
  urlunsplit (mkSplit scheme netloc url query fragment).

(** [if base_parts[-1] != '': del base_parts[-1]] *)
Definition drop_file_part (base_parts : list string) : list string :=
  if falsy (List.last base_parts EmptyString) then base_parts
  else removelast base_parts.

(** [segments[1:-1] = filter(None, segments[1:-1])] *)
Definition filter_middle (segments : list string) : list string :=
  match segments with
  | first :: (_ :: _) as rest =>
      first :: List.filter (fun s => negb (falsy s)) (removelast rest)
            ++ [List.last rest EmptyString]
  | _ => segments
  end.

(** The loop over [segments] that builds [resolved_path]. *)
Definition resolve_segment (resolved_path : list string) (seg : string) : list string :=
  if String.eqb seg ".." then removelast resolved_path
  else if String.eqb seg "." then resolved_path
  else resolved_path ++ [seg].

Definition resolve_path (segments : list string) : list string :=
  let resolved_path := fold_left resolve_segment segments [] in
  let final := List.last segments EmptyString in
  if String.eqb final "." || String.eqb final ".."
  then resolved_path ++ [EmptyString] else resolved_path.

Definition urljoin (base url : string) : option string :=
  if falsy base then Some url
  else if falsy url then Some base
  else
    match urlparse base EmptyString with
    | None => None
    | Some (mkParse bscheme bnetloc bpath bparams bquery bfragment) =>
        match urlparse url bscheme with
        | None => None
        | Some (mkParse scheme netloc path params query fragment) =>
            if negb (String.eqb scheme bscheme) || negb (mem scheme uses_relative)
            then Some url
            else if mem scheme uses_netloc && negb (falsy netloc)
            then Some (urlunparse (mkParse scheme netloc path params query fragment))
            else
              let netloc := if mem scheme uses_netloc then bnetloc else netloc in
              if falsy path && falsy params then
                let query := if falsy query then bquery else query in
                Some (urlunparse (mkParse scheme netloc bpath bparams query fragment))
              else
                let base_parts := drop_file_part (split "/" bpath) in
                let segments :=
                  if String.eqb (take 1 path) "/" then split "/" path
                  else filter_middle (base_parts ++ split "/" path) in
                let joined := join "/" (resolve_path segments) in
                Some (urlunparse (mkParse scheme netloc
                                    (if falsy joined then "/" else joined)
                                    params query fragment))
        end
    end.

End Ipaddress.

End Urllib.

(** ** BeautifulSoup documents

    The HTML parser is a collaborator; what the scraper sees of a parsed
    document is a tree of tags, text and comments. *)

Module Bs4.
Import PyStr.

Inductive node :=
| NavigableString (s : string)
| Comment (s : string)
| Tag (name : string) (attrs : gmap string string) (contents : list node).

Definition soup := list node.

(** [str.isspace] on a single character, and [\s] of the [re] module. *)
Definition isspace (c : ascii) : bool :=
  let n := nat_of_ascii c in
  ((9 <=? n) && (n <=? 13)) || ((28 <=? n) && (n <=? 32)) || (n =? 133) || (n =? 160).

(** The text of a document, in document order (comments are not text). *)
Fixpoint node_strings (n : node) : list string :=
  match n with
  | NavigableString s => [s]
  | Comment _ => []
  | Tag _ _ contents => flat_map node_strings contents
  end.

Definition strings (doc : soup) : list string := flat_map node_strings doc.

(** [soup.get_text(separator=sep)] *)
Definition get_text (sep : string) (doc : soup) : string := join sep (strings doc).

(** [tag.get_text(strip=True)]: every string stripped, empty ones dropped. *)
Definition get_text_stripped (doc : soup) : string :=
  join EmptyString
    (List.filter (fun s => negb (falsy s)) (strip isspace <$> strings doc)).

(** [soup.find_all(name)]: the tags called [name], in document order. *)
Fixpoint node_find_all (name : string) (n : node) : list node :=
  match n with
  | Tag nm attrs contents =>
      (if String.eqb nm name then [n] else [])
        ++ flat_map (node_find_all name) contents
  | _ => []
  end.

Definition find_all (name : string) (doc : soup) : list node :=
  flat_map (node_find_all name) doc.

(** [tag.get(key)] *)
Definition get (key : string) (n : node) : option string :=
  match n with
  | Tag _ attrs _ => attrs !! key
  | _ => None
  end.

(** [tag.string]: the single string a tag holds, looking through a single
    child tag. *)
Fixpoint string_of (n : node) : option string :=
  match n with
  | NavigableString s => Some s
  | Comment s => Some s
  | Tag _ _ [child] => string_of child
  | Tag _ _ _ => None
  end.

(** [for t in soup(names): t.decompose()]: every tag with one of the names is
    removed from the tree, with all it contains. *)
Fixpoint node_decompose (names : list string) (n : node) : list node :=
  match n with
  | Tag nm attrs contents =>
      if mem nm names then []
      else [Tag nm attrs (flat_map (node_decompose names) contents)]
  | _ => [n]
  end.

Definition decompose_all (names : list string) (doc : soup) : soup :=
  flat_map (node_decompose names) doc.

End Bs4.

(** ** The crawl's collaborators and its observable events *)

(** Calls that leave the process, in the order the scraper makes them. *)
Inductive event :=
| CsvHeader                               (* the header row written by [__init__] *)
| HttpGet (url : string)                  (* [requests.get(url, ...)] *)
| SeleniumImport (ok : bool)              (* [from selenium import webdriver] *)
| ChromeStart (ok : bool)                 (* [webdriver.Chrome(options=options)] *)
| DriverGet (url : string) (ok : bool)    (* [driver.get(url)] and [driver.page_source] *)
| DriverQuit                              (* [driver.quit()] *)
| CsvRow (url content : string).          (* [save_to_csv(url, content)] *)

#[global] Instance event_eq_dec : EqDecision event.
Proof. solve_decision. Defined.

(** What [requests.get] does: a response, or an exception. *)
Inductive http_result :=
| Response (status_code : Z) (text : string)
| RequestException.

(** The exceptions that can leave a method of the scraper. *)
Inductive exn := ImportError | ValueError | OSError | WebDriverException.

(** The answers of the outside world.  Each oracle sees the events so far, so
    an answer may depend on everything that happened before it. *)
Record world := mkWorld
  { requests_get : list event -> string -> http_result;
    selenium_import : list event -> bool;
    chrome_start : list event -> bool;
    driver_get : list event -> string -> option string;
    csv_append : list event -> bool;
    robots_read : bool;
    robots_can_fetch : string -> string -> bool;
    ip_address_is_v6 : string -> bool;
    bs_parse : string -> Bs4.soup;
    re_search : string -> string -> bool }.

Inductive WebDriver := Chrome.

(** ** The scraper object *)

Record scraper := mkScraper
  { base_url : string;
    respect_robots : bool;
    visited_urls : gset string;
    queue : list string;
    robot_parser_completed : bool;
    driver : option WebDriver;
    tried_selenium : bool;
    log : list event }.

Definition user_agent : string :=
  "Mozilla/5.0 (Windows NT 10.0; Win64; x64) AppleWebKit/537.36 (KHTML, like Gecko) Chrome/91.0.4472.124 Safari/537.36".

(** ** Methods run in a state and exception monad over the scraper object *)

Inductive outcome (A : Type) :=
| Return (a : A)
| Raise (e : exn).
Arguments Return {A} a.
Arguments Raise {A} e.

Definition M (A : Type) : Type := scraper -> outcome A * scraper.

#[global] Instance M_ret : MRet M := fun A a st => (Return a, st).

#[global] Instance M_bind : MBind M := fun A B k m st =>
  match m st with
  | (Return a, st') => k a st'
  | (Raise e, st') => (Raise e, st')
  end.

Definition raise {A} (e : exn) : M A := fun st => (Raise e, st).

(** [try: body except Exception: handler] *)
Definition try_except {A} (body : M A) (handler : M A) : M A := fun st =>
  match body st with
  | (Return a, st') => (Return a, st')
  | (Raise _, st') => handler st'
  end.

Definition gets {A} (f : scraper -> A) : M A := fun st => (Return (f st), st).

Definition modify (f : scraper -> scraper) : M unit := fun st => (Return tt, f st).

(** Assignments to the attributes of the scraper object. *)
Definition with_log (st : scraper) (l : list event) : scraper :=
  mkScraper (base_url st) (respect_robots st) (visited_urls st) (queue st)
    (robot_parser_completed st) (driver st) (tried_selenium st) l.

Definition with_driver (st : scraper) (d : option WebDriver) : scraper :=
  mkScraper (base_url st) (respect_robots st) (visited_urls st) (queue st)
    (robot_parser_completed st) d (tried_selenium st) (log st).

Definition with_tried_selenium (st : scraper) (b : bool) : scraper :=
  mkScraper (base_url st) (respect_robots st) (visited_urls st) (queue st)
    (robot_parser_completed st) (driver st) b (log st).

Definition with_queue (st : scraper) (q : list string) : scraper :=
  mkScraper (base_url st) (respect_robots st) (visited_urls st) q
    (robot_parser_completed st) (driver st) (tried_selenium st) (log st).

Definition with_visited_urls (st : scraper) (v : gset string) : scraper :=
  mkScraper (base_url st) (respect_robots st) v (queue st)
    (robot_parser_completed st) (driver st) (tried_selenium st) (log st).

(** [st] after the events [evs], nothing else changed. *)
Definition logged (st : scraper) (evs : list event) : scraper :=
  with_log st (log st ++ evs).

Definition emit (e : event) : M unit := modify (fun st => logged st [e]).

Definition set_driver (d : option WebDriver) : M unit :=
  modify (fun st => with_driver st d).

Definition set_tried_selenium (b : bool) : M unit :=
  modify (fun st => with_tried_selenium st b).

Definition set_queue (q : list string) : M unit :=
  modify (fun st => with_queue st q).

Definition set_visited_urls (v : gset string) : M unit :=
  modify (fun st => with_visited_urls st v).

(** A method of a library that raises [ValueError]. *)
Definition lift_value_error {A} (o : option A) : M A :=
  match o with
  | Some a => mret a
  | None => raise ValueError
  end.

Module SmartWebScraper.
Import PyStr.

Section Methods.

Variable w : world.

(** [__init__]: the robots policy is read once; a failure to read it only
    leaves [robot_parser_completed] false.  [urlparse(base_url)] can raise. *)
Definition __init__ (base_url : string) (respect_robots : bool) : option scraper :=
  match Urllib.urlparse (ip_address_is_v6 w) base_url EmptyString with
  | None => None
  | Some _ =>
      Some (mkScraper base_url respect_robots ∅ [base_url]
              (robots_read w) None false [CsvHeader])
  end.

Definition initialize_selenium : M bool :=
  d ← gets driver;
  match d with
  | Some _ => mret true
  | None =>
      l ← gets log;
      let imported := selenium_import w l in
      emit (SeleniumImport imported);;
      if imported then
        l ← gets log;
        let started := chrome_start w l in
        emit (ChromeStart started);;
        if started then set_driver (Some Chrome);; mret true
        else mret false
      else raise ImportError
  end.

Definition can_fetch (st : scraper) (url : string) : bool :=
  if negb (respect_robots st) then true
  else robots_can_fetch w user_agent url.

Definition is_same_domain (st : scraper) (url : string) : option bool :=
  base ← Urllib.urlparse (ip_address_is_v6 w) (base_url st) EmptyString;
  parsed ← Urllib.urlparse (ip_address_is_v6 w) url EmptyString;
  Some (String.eqb (Urllib.netloc base) (Urllib.netloc parsed)).

Definition normalize_url (st : scraper) (url : string) : option string :=
  if startswith url "http" then Some url
  else Urllib.urljoin (ip_address_is_v6 w) (base_url st) url.

Definition js_framework_patterns : list string :=
  ["react"; "vue"; "angular"; "next.js"; "nuxt"; "data-react"; "ng-app";
   "v-for"; "\_\_NEXT_DATA\_\_"; "window.__NUXT__"].

(** The patterns of the source with their quotes written as the escape
    [\x22], which the [re] module reads as the same character. *)
Definition js_content_patterns : list string :=
  ["<div id=\x22app\x22>\s*</div>";
   "<div id=\x22root\x22>\s*</div>";
   "getElementById\(.+?\)\.innerHTML";
   "document\.write\(";
   "display:\s*none;.+?['\x22]initial['\x22]"].

(** [any(re.search(p, text, re.I) for p in patterns)] *)
Definition any_match (patterns : list string) (text : string) : bool :=
  existsb (fun p => re_search w p text) patterns.

Definition script_matches (script : Bs4.node) : bool :=
  match Bs4.string_of script with
  | Some s => negb (falsy s) && any_match js_framework_patterns s
  | None => false
  end
  || match Bs4.get "src" script with
     | Some src => negb (falsy src) && any_match js_framework_patterns src
     | None => false
     end.

Definition detect_javascript_content (html_content : string) : bool :=
  let soup := bs_parse w html_content in
  match Bs4.find_all "body" soup with
  | body :: _ =>
      (String.length (Bs4.get_text_stripped [body]) <? 100)
      && existsb script_matches (Bs4.find_all "script" soup)
  | [] => false
  end
  || any_match (js_framework_patterns ++ js_content_patterns) html_content.

(** [requests.get(url, headers=self.headers, timeout=10)] *)
Definition http_get (url : string) : M (Z * string) :=
  l ← gets log;
  emit (HttpGet url);;
  match requests_get w l url with
  | Response status_code text => mret (status_code, text)
  | RequestException => raise OSError
  end.

(** [self.driver.get(url); time.sleep(3); self.driver.page_source] *)
Definition render (url : string) : M string :=
  l ← gets log;
  match driver_get w l url with
  | Some page_source => emit (DriverGet url true);; mret page_source
  | None => emit (DriverGet url false);; raise WebDriverException
  end.

(** [not self.tried_selenium and self.initialize_selenium()] *)
Definition selenium_ready : M bool :=
  tried ← gets tried_selenium;
  if negb tried then initialize_selenium else mret false.

(** The rendering attempt shared by both paths of [get_page_content]:
    [fallback] is what is returned when the browser is not used or fails. *)
Definition render_or (url : string) (fallback : option string) : M (option string) :=
  ready ← selenium_ready;
  if (ready : bool) then
    set_tried_selenium true;;
    try_except (page_source ← render url; mret (Some page_source))
               (mret fallback)
  else mret fallback.

Definition get_page_content (url : string) : M (option string) :=
  try_except
    (response ← http_get url;
     let '(status_code, html_content) := (response : Z * string) in
     if (status_code =? 200)%Z then
       if detect_javascript_content html_content
       then render_or url (Some html_content)
       else mret (Some html_content)
     else mret None)
    (render_or url None).

(** [not html_content] for a value that is [None] or a string. *)
Definition no_content (html_content : option string) : bool :=
  match html_content with
  | Some s => falsy s
  | None => true
  end.

(** [re.sub(r'\s+', ' ', text)]: every maximal run of whitespace becomes one
    space; [in_run] says that the previous character was whitespace. *)
Fixpoint collapse_from (in_run : bool) (text : string) : string :=
  match text with
  | EmptyString => EmptyString
  | String c rest =>
      if Bs4.isspace c then
        if in_run then collapse_from true rest
        else String " "%char (collapse_from true rest)
      else String c (collapse_from false rest)
  end.

Definition collapse_whitespace (text : string) : string := collapse_from false text.

Definition non_content_tags : list string :=
  ["script"; "style"; "noscript"; "iframe"; "svg"; "img"].

Definition extract_text (html_content : option string) : string :=
  match html_content with
  | None => EmptyString
  | Some html =>
      if falsy html then EmptyString
      else
        let soup := Bs4.decompose_all non_content_tags (bs_parse w html) in
        let text := Bs4.get_text " " soup in
        strip Bs4.isspace (collapse_whitespace text)
  end.

(** [soup.find_all('a', href=True)] and [a_tag['href']] *)
Definition anchor_hrefs (soup : Bs4.soup) : list string :=
  omap (Bs4.get "href") (Bs4.find_all "a" soup).

Definition skipped_href (href : string) : bool :=
  startswith href "#" || startswith href "javascript:"
  || startswith href "mailto:" || startswith href "tel:".

(** The loop of [extract_links] over the anchors; [None] is a [ValueError]
    out of [urllib.parse]. *)
Fixpoint collect_links (st : scraper) (hrefs links : list string) : option (list string) :=
  match hrefs with
  | [] => Some links
  | href :: hrefs' =>
      if skipped_href href then collect_links st hrefs' links
      else
        full_url ← normalize_url st href;
        same ← is_same_domain st full_url;
        collect_links st hrefs' (if (same : bool) then links ++ [full_url] else links)
  end.

Definition extract_links (st : scraper) (html_content : option string) : option (list string) :=
  match html_content with
  | None => Some []
  | Some html =>
      if falsy html then Some []
      else collect_links st (anchor_hrefs (bs_parse w html)) []
  end.

Definition save_to_csv (url content : string) : M unit :=
  l ← gets log;
  if csv_append w l then emit (CsvRow url content)
  else raise OSError.

(** [for link in links: if link not in visited and link not in queue: append] *)
Fixpoint enqueue_links (visited : gset string) (queue links : list string) : list string :=
  match links with
  | [] => queue
  | link :: links' =>
      enqueue_links visited
        (if bool_decide (link ∉ visited) && bool_decide (link ∉ queue)
         then queue ++ [link] else queue)
        links'
  end.

(** The test that sends the loop to [continue]. *)
Definition robots_disallows (st : scraper) (url : string) : bool :=
  robot_parser_completed st && negb (can_fetch st url).

Definition skip_url (st : scraper) (url : string) : bool :=
  bool_decide (url ∈ visited_urls st) || robots_disallows st url.

(** What one pass through the body of the [while] loop did. *)
Inductive pass := Skipped | Counted.

(** The body of the loop, entered with [url = self.queue.pop(0)].  The
    politeness delay and the log lines have no effect on the scraper object
    and are left out. *)
Definition loop_body (url : string) : M pass :=
  st ← gets id;
  if skip_url st url then mret Skipped
  else
    set_visited_urls ({[url]} ∪ visited_urls st);;
    html_content ← get_page_content url;
    (if negb (no_content html_content) then
       save_to_csv url (extract_text html_content);;
       st ← gets id;
       links ← lift_value_error (extract_links st html_content);
       set_queue (enqueue_links (visited_urls st) (queue st) links)
     else mret tt);;
    mret Counted.

(** How a run stands: the loop has ended, an exception left it, or it is
    still going after the passes that were run. *)
Inductive status := Completed | Propagated (e : exn) | Running.

(** [max_pages is None or page_count < max_pages] *)
Definition within_budget (max_pages : option Z) (page_count : Z) : bool :=
  match max_pages with
  | None => true
  | Some m => (page_count <? m)%Z
  end.

(** The [while] loop, for at most [fuel] passes. *)
Fixpoint crawl (fuel : nat) (max_pages : option Z) (page_count : Z) (st : scraper)
  : status * Z * scraper :=
  match queue st with
  | [] => (Completed, page_count, st)
  | url :: rest =>
      if within_budget max_pages page_count then
        match fuel with
        | O => (Running, page_count, st)
        | S fuel' =>
            match (set_queue rest;; loop_body url) st with
            | (Return Skipped, st') => crawl fuel' max_pages page_count st'
            | (Return Counted, st') => crawl fuel' max_pages (page_count + 1) st'
            | (Raise e, st') => (Propagated e, page_count, st')
            end
        end
      else (Completed, page_count, st)
  end.

(** The [finally] clause. *)
Definition cleanup : M unit :=
  d ← gets driver;
  match d with
  | Some _ => emit DriverQuit
  | None => mret tt
  end.

(** [scrape(max_pages)]: the loop, then the [finally] clause on every way out
    of it. *)
Definition scrape (fuel : nat) (max_pages : option Z) (st : scraper)
  : status * Z * scraper :=
  match crawl fuel max_pages 0 st with
  | (Running, page_count, st') => (Running, page_count, st')
  | (s, page_count, st') => (s, page_count, (cleanup st').2)
  end.

End Methods.

End SmartWebScraper.

(** * Vocabulary of the statements *)

Import SmartWebScraper.

(** Two whitespace characters next to each other somewhere in [s]. *)
Fixpoint adjacent_whitespace (s : string) : bool :=
  match s with
  | String a (String b _ as rest) =>
      (Bs4.isspace a && Bs4.isspace b) || adjacent_whitespace rest
  | _ => false
  end.

Definition leading_whitespace (s : string) : bool :=
  match s with
  | String a _ => Bs4.isspace a
  | EmptyString => false
  end.

Fixpoint trailing_whitespace (s : string) : bool :=
  match s with
  | EmptyString => false
  | String a EmptyString => Bs4.isspace a
  | String _ rest => trailing_whitespace rest
  end.

(** The URLs handed to [requests.get], in the order of the requests. *)
Definition fetched (l : list event) : list string :=
  omap (fun e => match e with HttpGet url => Some url | _ => None end) l.

(** The events a pass of the loop can log after its HTTP request: those of
    the headless browser, and the row written for the page. *)
Definition page_event (e : event) : bool :=
  match e with
  | SeleniumImport _ | ChromeStart _ | DriverGet _ _ | CsvRow _ _ => true
  | _ => false
  end.

(** The number of events of a log that satisfy [p]. *)
Definition count (p : event -> bool) (l : list event) : nat :=
  length (List.filter p l).

(** A start of Chrome that returned a handle; any attempt to start it; the
    release of the handle. *)
Definition started (e : event) : bool :=
  match e with ChromeStart true => true | _ => false end.

Definition start_attempt (e : event) : bool :=
  match e with ChromeStart _ => true | _ => false end.

Definition released (e : event) : bool :=
  match e with DriverQuit => true | _ => false end.

(** A browser handle exists exactly when a start of Chrome succeeded. *)
Definition driver_logged (st : scraper) : Prop :=
  is_Some (driver st) <-> ChromeStart true ∈ log st.

(** What no method changes after [__init__]. *)
Definition same_config (st st' : scraper) : Prop :=
  base_url st' = base_url st
  /\ respect_robots st' = respect_robots st
  /\ robot_parser_completed st' = robot_parser_completed st.

(** [st'] is [st] after the events [evs] of a page: the frontier and the
    configuration are untouched, and a handle appears exactly with a
    successful start of Chrome, which is not attempted once a handle exists. *)
Definition page_step (st st' : scraper) (evs : list event) : Prop :=
  log st' = log st ++ evs
  /\ forallb page_event evs = true
  /\ same_config st st'
  /\ visited_urls st' = visited_urls st
  /\ queue st' = queue st
  /\ (is_Some (driver st') <-> is_Some (driver st) \/ ChromeStart true ∈ evs)
  /\ (is_Some (driver st) -> ChromeStart true ∉ evs)
  /\ (count started evs <= 1).

(** What holds of the scraper [st] at every point of a crawl that began in
    the state [st0]. *)
Definition crawl_invariant (w : world) (st0 st : scraper) : Prop :=
  same_config st0 st
  /\ NoDup (fetched (log st))
  /\ (forall url, url ∈ fetched (log st) -> url ∈ visited_urls st)
  /\ NoDup (queue st)
  /\ (forall url, url ∈ queue st -> is_same_domain w st0 url = Some true)
  /\ driver_logged st
  /\ (DriverQuit ∉ log st)
  /\ (count started (log st) <= 1).

(** [link] was produced by [extract_links] from the reference [href]. *)
Definition link_of (w : world) (st : scraper) (href link : string) : Prop :=
  skipped_href href = false
  /\ normalize_url w st href = Some link
  /\ is_same_domain w st link = Some true.

(** [url] has the network location of [base], as [urlparse] reads both. *)
Definition same_netloc (w : world) (base url : string) : Prop :=
  exists b p,
    Urllib.urlparse (ip_address_is_v6 w) base EmptyString = Some b
    /\ Urllib.urlparse (ip_address_is_v6 w) url EmptyString = Some p
    /\ Urllib.netloc p = Urllib.netloc b.

(** [extract_links] resolves the relative references of [html] against
    [origin]: every link it returns is a reference of the page as it stands,
    or that reference joined to [origin]. *)
Definition resolved_against (w : world) (st : scraper) (origin html : string) : Prop :=
  forall links link,
    extract_links w st (Some html) = Some links ->
    link ∈ links ->
    exists href,
      href ∈ anchor_hrefs (bs_parse w html)
      /\ (link = href
          \/ Urllib.urljoin (ip_address_is_v6 w) origin href = Some link).

(** [normalize(normalize(u))], an exception of the first call being the
    result. *)
Definition normalize_twice (w : world) (st : scraper) (url : string) : option string :=
  normalize_url w st url ≫= normalize_url w st.

(** ** Concrete sites, used to run the scraper *)

Module Scenario.

(** A page whose body is one anchor. *)
Definition page_with_link (href : string) : Bs4.soup :=
  [Bs4.Tag "html" ∅
     [Bs4.Tag "body" ∅
        [Bs4.Tag "a" {[ "href" := href ]} [Bs4.NavigableString "next"]]]].

(** Every page answers 200 and links to [/b]; the classifier fires on every
    page ([re.search] always matches); Selenium can be imported but Chrome
    never starts. *)
Definition chrome_never_starts : world :=
  {| requests_get := fun _ _ => Response 200 "<a href=/b>next</a>";
     selenium_import := fun _ => true;
     chrome_start := fun _ => false;
     driver_get := fun _ _ => None;
     csv_append := fun _ => true;
     robots_read := true;
     robots_can_fetch := fun _ _ => true;
     ip_address_is_v6 := fun _ => false;
     bs_parse := fun _ => page_with_link "/b";
     re_search := fun _ _ => true |}.

(** Every page answers 404 and the robots policy could not be read. *)
Definition all_not_found : world :=
  {| requests_get := fun _ _ => Response 404 "";
     selenium_import := fun _ => true;
     chrome_start := fun _ => true;
     driver_get := fun _ _ => None;
     csv_append := fun _ => true;
     robots_read := false;
     robots_can_fetch := fun _ _ => false;
     ip_address_is_v6 := fun _ => false;
     bs_parse := fun _ => [];
     re_search := fun _ _ => false |}.

(** A static site: every page answers 200 with one relative link
    [guide.html], and no page needs rendering. *)
Definition static_site : world :=
  {| requests_get := fun _ _ => Response 200 "<a href=guide.html>next</a>";
     selenium_import := fun _ => true;
     chrome_start := fun _ => true;
     driver_get := fun _ _ => None;
     csv_append := fun _ => true;
     robots_read := true;
     robots_can_fetch := fun _ _ => true;
     ip_address_is_v6 := fun _ => false;
     bs_parse := fun _ => page_with_link "guide.html";
     re_search := fun _ _ => false |}.

(** As [chrome_never_starts], with a Chrome that starts and renders every
    page as [rendered]. *)
Definition rendering_site : world :=
  {| requests_get := fun _ _ => Response 200 "<a href=/b>next</a>";
     selenium_import := fun _ => true;
     chrome_start := fun _ => true;
     driver_get := fun _ _ => Some "rendered";
     csv_append := fun _ => true;
     robots_read := true;
     robots_can_fetch := fun _ _ => true;
     ip_address_is_v6 := fun _ => false;
     bs_parse := fun _ => page_with_link "/b";
     re_search := fun _ _ => true |}.

(** The seed page links to [docs/index.html], and that page links to
    [guide.html], a file next to it. *)
Definition nested_site : world :=
  {| requests_get := fun _ url =>
       if String.eqb url "http://example.com/" then Response 200 "seed"
       else Response 200 "docs";
     selenium_import := fun _ => true;
     chrome_start := fun _ => true;
     driver_get := fun _ _ => None;
     csv_append := fun _ => true;
     robots_read := true;
     robots_can_fetch := fun _ _ => true;
     ip_address_is_v6 := fun _ => false;
     bs_parse := fun html =>
       if String.eqb html "seed" then page_with_link "docs/index.html"
       else page_with_link "guide.html";
     re_search := fun _ _ => false |}.

(** The scraper that [__init__] builds for [base] in a world where the
    robots policy was read (or not). *)
Definition fresh (base : string) (robots_read : bool) : scraper :=
  mkScraper base true ∅ [base] robots_read None false [CsvHeader].

End Scenario.

(** ** Vocabulary of the further properties *)

(** The browser was pointed at a page. *)
Definition driven (e : event) : bool :=
  match e with DriverGet _ _ => true | _ => false end.

(** The events of Selenium and Chrome. *)
Definition browser_event (e : event) : bool :=
  match e with
  | SeleniumImport _ | ChromeStart _ | DriverGet _ _ => true
  | _ => false
  end.

(** The rows of the sink, as pairs of a URL and its text, in the order they
    were written. *)
Definition rows (l : list event) : list (string * string) :=
  omap (fun e => match e with CsvRow url content => Some (url, content) | _ => None end) l.

(** What [get_page_content] does to the log and to [tried_selenium]: it
    logs events of the browser only; once [tried_selenium] is set it stays
    set and the browser is not pointed at any page; before that the browser
    is pointed at one page at most, and only if the flag is set by the call. *)
Definition fetch_step (st st' : scraper) (evs : list event) : Prop :=
  log st' = log st ++ evs
  /\ forallb browser_event evs = true
  /\ (tried_selenium st = true ->
      tried_selenium st' = true /\ count driven evs = 0)
  /\ (tried_selenium st = false ->
      count driven evs <= 1
      /\ (tried_selenium st' = false -> count driven evs = 0)).

(** Every whitespace character of [s] is the space character. *)
Fixpoint plain_spaces (s : string) : bool :=
  match s with
  | EmptyString => true
  | String c rest =>
      (negb (Bs4.isspace c) || Ascii.eqb c " ") && plain_spaces rest
  end.

(** [re.sub(r'\s+', ' ', text).strip()], the last line of [extract_text]. *)
Definition normalize_whitespace (text : string) : string :=
  PyStr.strip Bs4.isspace (collapse_whitespace text).

(** What holds, beyond [crawl_invariant], of the scraper [st] at every point
    of a crawl that began in the state [st0]: the queue and the visited set
    do not meet, the visited set is the set of requested URLs, none of which
    the robots test rejects, the browser was pointed at one page at most, and
    the sink holds a header followed by rows for requested URLs, in the order
    of the requests, each with a text made by [extract_text]. *)
Definition run_invariant (w : world) (st0 st : scraper) : Prop :=
  same_config st0 st
  /\ NoDup (queue st)
  /\ (forall url, url ∈ queue st -> url ∉ visited_urls st)
  /\ (forall url, url ∈ visited_urls st <-> url ∈ fetched (log st))
  /\ (forall url, url ∈ fetched (log st) -> robots_disallows w st0 url = false)
  /\ (count driven (log st) <= 1)
  /\ (tried_selenium st = false -> count driven (log st) = 0)
  /\ (rows (log st)).*1 `sublist_of` fetched (log st)
  /\ (forall url content,
        (url, content) ∈ rows (log st) ->
        exists html, content = extract_text w (Some html))
  /\ (exists l, log st = CsvHeader :: l /\ CsvHeader ∉ l).

(** The link [extract_links] keeps for one reference, when no call raises:
    none for a skipped reference or one of another network location. *)
Definition kept_link (w : world) (st : scraper) (href : string) : option string :=
  if skipped_href href then None
  else match normalize_url w st href with
       | Some full_url =>
           match is_same_domain w st full_url with
           | Some true => Some full_url
           | _ => None
           end
       | None => None
       end.

(** A call of [urllib.parse] raises on the reference [href]. *)
Definition href_raises (w : world) (st : scraper) (href : string) : Prop :=
  skipped_href href = false
  /\ (normalize_url w st href = None
      \/ exists full_url,
           normalize_url w st href = Some full_url
           /\ is_same_domain w st full_url = None).

(** ** More concrete sites *)

Module MoreScenarios.

(** No request gets through and Selenium is not installed. *)
Definition no_selenium : world :=
  {| requests_get := fun _ _ => RequestException;
     selenium_import := fun _ => false;
     chrome_start := fun _ => false;
     driver_get := fun _ _ => None;
     csv_append := fun _ => true;
     robots_read := true;
     robots_can_fetch := fun _ _ => true;
     ip_address_is_v6 := fun _ => false;
     bs_parse := fun _ => [];
     re_search := fun _ _ => false |}.

(** A static site whose pages link to [/b] and whose robots policy
    disallows [http://example.com/b]. *)
Definition guarded_site : world :=
  {| requests_get := fun _ _ => Response 200 "<a href=/b>next</a>";
     selenium_import := fun _ => true;
     chrome_start := fun _ => true;
     driver_get := fun _ _ => None;
     csv_append := fun _ => true;
     robots_read := true;
     robots_can_fetch := fun _ url => negb (String.eqb url "http://example.com/b");
     ip_address_is_v6 := fun _ => false;
     bs_parse := fun _ => Scenario.page_with_link "/b";
     re_search := fun _ _ => false |}.

(** The scraper that [__init__] builds with [respect_robots=False]. *)
Definition fresh_ignoring_robots (base : string) (robots_read : bool) : scraper :=
  mkScraper base false ∅ [base] robots_read None false [CsvHeader].

End MoreScenarios.

(** * Properties *)

(** Unfolds the monad so that a method applied to a state computes. *)
Ltac run_monad :=
  unfold render_or, selenium_ready, initialize_selenium, http_get, render,
    save_to_csv, cleanup, lift_value_error, try_except, emit, set_driver,
    set_tried_selenium, set_queue, set_visited_urls, modify, gets, raise,
    logged, with_log, with_driver, with_tried_selenium, with_queue,
    with_visited_urls,
    mbind, mret, M_bind, M_ret in *;
  simpl in *.

(** ** Fetching one page *)

Lemma get_page_content_non_200 (w : world) (st : scraper) (url : string)
    (status_code : Z) (text : string) :
  requests_get w (log st) url = Response status_code text ->
  status_code <> 200%Z ->
  get_page_content w url st = (Return None, logged st [HttpGet url]).
Proof.
  intros Hget Hcode. unfold get_page_content. run_monad. rewrite Hget. simpl.
  destruct (Z.eqb_spec status_code 200) as [->|_]; [congruence|reflexivity].
Qed.

(** C6. A static fetch that completes with a status other than 200 makes
    [get_page_content] return [None]; the only event of the call is the HTTP
    request itself, so the browser is neither started nor driven, and the
    scraper object is otherwise unchanged. *)
Theorem non_200_is_terminal (w : world) (st : scraper) (url : string)
    (status_code : Z) (text : string) :
  requests_get w (log st) url = Response status_code text ->
  status_code <> 200%Z ->
  get_page_content w url st = (Return None, logged st [HttpGet url]).
Proof.
  intros Hget Hcode. unfold get_page_content, try_except, http_get.
  unfold gets, emit, modify, mbind, mret, M_bind, M_ret. simpl.
  rewrite Hget.
  destruct (Z.eqb_spec status_code 200) as [Heq|_].
  - by destruct Hcode.
  - reflexivity.
Qed.

(** ** Text extraction *)

Section Whitespace.

Lemma adjacent_whitespace_cons a s :
  adjacent_whitespace (String a s) = (Bs4.isspace a && leading_whitespace s) || adjacent_whitespace s.
Proof. destruct s; simpl; [by rewrite andb_false_r|reflexivity]. Qed.

Lemma collapse_from_shape in_run text :
  adjacent_whitespace (collapse_from in_run text) = false
  /\ (in_run = true -> leading_whitespace (collapse_from in_run text) = false).
Proof.
  revert in_run. induction text as [|c rest IH]; intros in_run; simpl; [done|].
  destruct (Bs4.isspace c) eqn:Hc.
  - destruct in_run.
    + apply IH.
    + destruct (IH true) as [Hadj Hlead]. split; [|done].
      rewrite adjacent_whitespace_cons, Hadj, Hlead by done.
      by rewrite andb_false_r.
  - destruct (IH false) as [Hadj _]. split.
    + rewrite adjacent_whitespace_cons, Hadj. by rewrite Hc.
    + intros _. simpl. exact Hc.
Qed.

Lemma lstrip_adjacent s :
  adjacent_whitespace s = false -> adjacent_whitespace (PyStr.lstrip Bs4.isspace s) = false.
Proof.
  induction s as [|a s IH]; [done|]. intros H. simpl.
  destruct (Bs4.isspace a) eqn:Ha; [|done]. apply IH.
  rewrite adjacent_whitespace_cons in H. by apply orb_false_elim in H as [_ ?].
Qed.

Lemma lstrip_leading s : leading_whitespace (PyStr.lstrip Bs4.isspace s) = false.
Proof.
  induction s as [|a s IH]; [done|]. simpl.
  destruct (Bs4.isspace a) eqn:Ha; [exact IH | exact Ha].
Qed.

Lemma rstrip_leading s :
  leading_whitespace s = false -> leading_whitespace (PyStr.rstrip Bs4.isspace s) = false.
Proof.
  destruct s as [|a s]; [done|]. simpl. intros Ha.
  destruct (PyStr.rstrip Bs4.isspace s); [|exact Ha].
  by rewrite Ha.
Qed.

Lemma rstrip_adjacent s :
  adjacent_whitespace s = false -> adjacent_whitespace (PyStr.rstrip Bs4.isspace s) = false.
Proof.
  induction s as [|a s IH]; [done|]. intros H.
  rewrite adjacent_whitespace_cons in H.
  apply orb_false_elim in H as [Ha Hs]. simpl.
  destruct (PyStr.rstrip Bs4.isspace s) as [|b r] eqn:Hr.
  - by destruct (Bs4.isspace a).
  - rewrite adjacent_whitespace_cons, (IH Hs), orb_false_r.
    apply andb_false_iff in Ha as [Ha| Hl]; [by rewrite Ha|].
    pose proof (rstrip_leading s Hl) as Hb. rewrite Hr in Hb.
    rewrite Hb. apply andb_false_r.
Qed.

Lemma rstrip_trailing s : trailing_whitespace (PyStr.rstrip Bs4.isspace s) = false.
Proof.
  induction s as [|a s IH]; [done|]. simpl.
  destruct (PyStr.rstrip Bs4.isspace s) as [|b r] eqn:Hr.
  - destruct (Bs4.isspace a) eqn:Ha; [done|]. simpl. exact Ha.
  - exact IH.
Qed.

Lemma strip_collapse_normal text :
  let out := PyStr.strip Bs4.isspace (collapse_whitespace text) in
  adjacent_whitespace out = false
  /\ leading_whitespace out = false
  /\ trailing_whitespace out = false.
Proof.
  unfold PyStr.strip, collapse_whitespace. simpl. split_and!.
  - apply rstrip_adjacent, lstrip_adjacent, collapse_from_shape.
  - apply rstrip_leading, lstrip_leading.
  - apply rstrip_trailing.
Qed.

End Whitespace.

(** C9. Whatever the markup and whatever the parser makes of it, the text
    returned by [extract_text] has no two whitespace characters next to each
    other and neither starts nor ends with whitespace; for [None] and for the
    empty string the result is the empty string. *)
Theorem extract_text_normalized (w : world) (html_content : option string) :
  adjacent_whitespace (extract_text w html_content) = false
  /\ leading_whitespace (extract_text w html_content) = false
  /\ trailing_whitespace (extract_text w html_content) = false
  /\ extract_text w None = EmptyString
  /\ extract_text w (Some EmptyString) = EmptyString.
Proof.
  assert (Hnorm :
    adjacent_whitespace (extract_text w html_content) = false
    /\ leading_whitespace (extract_text w html_content) = false
    /\ trailing_whitespace (extract_text w html_content) = false).
  { unfold extract_text. destruct html_content as [html|]; [|done].
    destruct (PyStr.falsy html); [done|]. apply strip_collapse_normal. }
  destruct Hnorm as (? & ? & ?). by split_and!.
Qed.

(** ** Counting events *)

Lemma count_app p l1 l2 : count p (l1 ++ l2) = count p l1 + count p l2.
Proof. unfold count. by rewrite List.filter_app, length_app. Qed.

Lemma count_0 p l : (forall e, e ∈ l -> p e = false) -> count p l = 0.
Proof.
  unfold count. induction l as [|e l IH]; intros H; simpl; [done|].
  rewrite (H e) by by left. apply IH. intros e' ?. apply H. by right.
Qed.

Lemma count_started_0 l : ChromeStart true ∉ l -> count started l = 0.
Proof.
  intros H. apply count_0. intros e He.
  destruct e as [| | |[|]| | |]; first [done | by destruct H].
Qed.

Lemma count_page_event p l :
  (forall e, p e = true -> page_event e = false) ->
  forallb page_event l = true -> count p l = 0.
Proof.
  intros Hp Hl. apply count_0. intros e He.
  destruct (p e) eqn:Hpe; [|done]. apply Hp in Hpe.
  rewrite forallb_forall in Hl. apply list_elem_of_In, Hl in He. congruence.
Qed.

Lemma fetched_app l1 l2 : fetched (l1 ++ l2) = fetched l1 ++ fetched l2.
Proof. apply omap_app. Qed.

Lemma fetched_page_events l : forallb page_event l = true -> fetched l = [].
Proof.
  induction l as [|e l IH]; [done|]. simpl.
  intros [He Hl]%andb_prop. unfold fetched. simpl.
  destruct e; try done; by apply IH.
Qed.

(** ** What one call of [get_page_content] does to the scraper *)

Lemma page_step_trans st st1 st2 evs1 evs2 :
  page_step st st1 evs1 -> page_step st1 st2 evs2 ->
  page_step st st2 (evs1 ++ evs2).
Proof.
  unfold page_step, same_config.
  intros (Hl1 & Hb1 & (?&?&?) & Hv1 & Hq1 & Hd1 & Hn1 & Hc1)
         (Hl2 & Hb2 & (?&?&?) & Hv2 & Hq2 & Hd2 & Hn2 & Hc2).
  split_and!; try congruence.
  - by rewrite Hl2, Hl1, app_assoc.
  - by rewrite forallb_app, Hb1, Hb2.
  - rewrite Hd2, Hd1, elem_of_app. tauto.
  - intros Hd. rewrite elem_of_app. intros [?|?]; [by apply Hn1|].
    apply Hn2; [|done]. apply Hd1. by left.
  - rewrite count_app.
    destruct (decide (ChromeStart true ∈ evs1)) as [Hin|Hout].
    + assert (Hnot : ChromeStart true ∉ evs2) by (apply Hn2, Hd1; by right).
      apply count_started_0 in Hnot. lia.
    + apply count_started_0 in Hout. lia.
Qed.

Lemma render_or_spec (w : world) (url : string) (fallback : option string)
    (st st' : scraper) (r : outcome (option string)) :
  render_or w url fallback st = (r, st') -> exists evs, page_step st st' evs.
Proof.
  unfold page_step, same_config. run_monad. intros H.
  repeat case_match; simplify_eq/=;
    first [ exists []; split; [by rewrite app_nil_r|]
          | eexists; split; [by rewrite <- ?app_assoc|] ];
    simpl; split_and!; try done.
  all: try (unfold count; simpl; lia).
  all: try (rewrite ?is_Some_alt; set_solver).
  all: try (intros [? ?]; congruence).
  all: match goal with H : driver _ = _ |- _ => rewrite H end;
    rewrite ?is_Some_alt; set_solver.
Qed.

#[local] Arguments render_or : simpl never.

Lemma get_page_content_spec (w : world) (url : string) (st st' : scraper)
    (r : outcome (option string)) :
  get_page_content w url st = (r, st') ->
  exists evs, page_step (logged st [HttpGet url]) st' evs.
Proof.
  assert (Hrefl : forall s, page_step s s []).
  { intros s. unfold page_step, same_config. rewrite app_nil_r.
    split_and!; try done; try set_solver. }
  unfold get_page_content, try_except, http_get, gets, emit, modify, raise,
    mbind, mret, M_bind, M_ret.
  fold (logged st [HttpGet url]). intros H.
  destruct (requests_get w (log st) url) as [status_code text|].
  - destruct (status_code =? 200)%Z;
      [destruct (detect_javascript_content w text)|];
      try (simplify_eq; eauto; fail).
    destruct (render_or w url (Some text) (logged st [HttpGet url]))
      as [[a|e] st1] eqn:Hr1.
    + simplify_eq. eauto using render_or_spec.
    + apply render_or_spec in Hr1 as [evs1 H1].
      apply render_or_spec in H as [evs2 H2].
      eauto using page_step_trans.
  - eauto using render_or_spec.
Qed.

(** ** Link extraction *)

Lemma collect_links_spec (w : world) (st : scraper) (hrefs acc links : list string) :
  collect_links w st hrefs acc = Some links ->
  exists new, links = acc ++ new
    /\ Forall (fun link => exists href, href ∈ hrefs /\ link_of w st href link) new.
Proof.
  revert acc. induction hrefs as [|href hrefs IH]; intros acc H; simpl in H.
  - exists []. simplify_eq. by rewrite app_nil_r.
  - destruct (skipped_href href) eqn:Hskip.
    + destruct (IH _ H) as (new & -> & Hnew). exists new. split; [done|].
      eapply Forall_impl; [exact Hnew|]. intros l (h & ? & ?). exists h.
      split; [by right|done].
    + destruct (normalize_url w st href) as [full_url|] eqn:Hnorm;
        simpl in H; [|done].
      destruct (is_same_domain w st full_url) as [same|] eqn:Hsame;
        simpl in H; [|done]. destruct (IH _ H) as (new & -> & Hnew).
      assert (Hnew' : Forall (fun link => exists h, h ∈ href :: hrefs
                                /\ link_of w st h link) new).
      { eapply Forall_impl; [exact Hnew|]. intros l (h & ? & ?). exists h.
        split; [by right|done]. }
      destruct same.
      * exists (full_url :: new). split; [by rewrite <- app_assoc|].
        constructor; [|done]. exists href. split; [by left|done].
      * by exists new.
Qed.

Lemma extract_links_spec (w : world) (st : scraper) (html_content : option string)
    (links : list string) :
  extract_links w st html_content = Some links ->
  Forall (fun link => exists html href,
            html_content = Some html
            /\ href ∈ anchor_hrefs (bs_parse w html)
            /\ link_of w st href link) links.
Proof.
  unfold extract_links. destruct html_content as [html|]; [|by intros [= <-]].
  destruct (PyStr.falsy html); [by intros [= <-]|].
  intros (new & -> & Hnew)%collect_links_spec. simpl.
  eapply Forall_impl; [exact Hnew|]. intros l (h & ? & ?). by exists html, h.
Qed.

Lemma is_same_domain_config (w : world) (st st' : scraper) (url : string) :
  base_url st' = base_url st -> is_same_domain w st' url = is_same_domain w st url.
Proof. unfold is_same_domain. by intros ->. Qed.

(** ** One pass through the loop *)

Lemma enqueue_links_elem visited queue links url :
  url ∈ enqueue_links visited queue links -> url ∈ queue \/ url ∈ links.
Proof.
  revert queue. induction links as [|l links IH]; intros queue; simpl.
  - by left.
  - intros [H|H]%IH; [|right; by right].
    case_match; [|by left].
    apply elem_of_app in H as [?|Heq%list_elem_of_singleton];
      [by left|subst; right; by left].
Qed.

Lemma enqueue_links_NoDup visited queue links :
  NoDup queue -> NoDup (enqueue_links visited queue links).
Proof.
  revert queue. induction links as [|l links IH]; intros queue Hq; simpl; [done|].
  apply IH. case_match; [|done].
  apply andb_prop in H as [_ Hl%bool_decide_eq_true].
  apply NoDup_app. split_and!; [done| |apply NoDup_singleton].
  intros x Hx Heq%list_elem_of_singleton. by subst.
Qed.

Lemma pass_spec (w : world) (st st' : scraper) (url : string) (rest : list string)
    (r : outcome pass) :
  (set_queue rest;; loop_body w url) st = (r, st') ->
  (skip_url w st url = true /\ r = Return Skipped /\ st' = with_queue st rest)
  \/ (skip_url w st url = false /\ r <> Return Skipped
      /\ exists st1 evs links,
           page_step
             (logged (with_visited_urls (with_queue st rest)
                        ({[url]} ∪ visited_urls st)) [HttpGet url]) st1 evs
           /\ st' = with_queue st1 (enqueue_links (visited_urls st1) rest links)
           /\ Forall (fun link => is_same_domain w st link = Some true) links).
Proof.
  assert (Hrefl : forall s, page_step s s []).
  { intros s. unfold page_step, same_config. rewrite app_nil_r.
    split_and!; try done; try set_solver. }
  assert (Hkeep : forall st1 evs,
    page_step (logged (with_visited_urls (with_queue st rest)
                 ({[url]} ∪ visited_urls st)) [HttpGet url]) st1 evs ->
    st1 = with_queue st1 (enqueue_links (visited_urls st1) rest [])).
  { intros st1 evs (_ & _ & _ & _ & Hq & _). destruct st1. simpl in *.
    unfold with_queue. simpl. by rewrite Hq. }
  intros H.
  unfold loop_body, set_queue, set_visited_urls, modify, gets, mbind, mret,
    M_bind, M_ret in H.
  simpl in H.
  change (skip_url w (with_queue st rest) url) with (skip_url w st url) in H.
  destruct (skip_url w st url) eqn:Hskip; [simplify_eq; by left|].
  right. split; [done|].
  destruct (get_page_content w url _) as [[html|e] st1] eqn:Hget;
    apply get_page_content_spec in Hget as [evs Hstep].
  2: { simplify_eq. split; [done|]. exists st', evs, []. eauto. }
  destruct (no_content html) eqn:Hnone; simpl in H.
  { simplify_eq. split; [done|]. exists st', evs, []. eauto. }
  unfold save_to_csv, gets, emit, modify, raise, mbind, mret, M_bind, M_ret in H.
  destruct (csv_append w (log st1)).
  2: { simplify_eq. split; [done|]. exists st', evs, []. eauto. }
  set (row := CsvRow url (extract_text w html)) in H.
  assert (Hstep' : page_step
    (logged (with_visited_urls (with_queue st rest)
       ({[url]} ∪ visited_urls st)) [HttpGet url]) (logged st1 [row]) (evs ++ [row])).
  { eapply page_step_trans; [exact Hstep|].
    unfold page_step, same_config. simpl. split_and!; try done.
    - set_solver.
    - intros _ Hin%list_elem_of_singleton. done.
    - unfold count. simpl. lia. }
  unfold lift_value_error in H.
  destruct (extract_links w (logged st1 [row]) html) as [links|] eqn:Hlinks.
  2: { unfold raise in H. simplify_eq. split; [done|].
       exists (logged st1 [row]), (evs ++ [row]), []. eauto. }
  simpl in H. simplify_eq. split; [done|].
  exists (logged st1 [row]), (evs ++ [row]), links. split_and!; [done| |].
  { destruct Hstep as (_ & _ & _ & _ & Hq & _). simpl in Hq. simpl.
    by rewrite Hq. }
  apply extract_links_spec in Hlinks.
  eapply Forall_impl; [exact Hlinks|].
  intros l (? & ? & _ & _ & _ & _ & Hsame).
  rewrite <- Hsame. symmetry. apply is_same_domain_config.
  destruct Hstep' as (_ & _ & (Hb & _) & _). exact Hb.
Qed.

(** ** The invariant of the crawl *)

Lemma init_invariant (w : world) (base : string) (robots : bool) (st0 : scraper) :
  __init__ w base robots = Some st0 -> crawl_invariant w st0 st0.
Proof.
  unfold __init__.
  destruct (Urllib.urlparse (ip_address_is_v6 w) base "") as [parsed|] eqn:Hparse;
    [|done].
  intros [= <-]. unfold crawl_invariant, same_config, driver_logged. simpl.
  split_and!; try done.
  - constructor.
  - intros url Hin. by apply elem_of_nil in Hin.
  - apply NoDup_singleton.
  - intros url ->%list_elem_of_singleton. unfold is_same_domain. simpl.
    rewrite Hparse. simpl. by rewrite String.eqb_refl.
  - split; [by intros [? ?]|]. intros Hin%list_elem_of_singleton. done.
  - intros Hin%list_elem_of_singleton. done.
  - unfold count. simpl. lia.
Qed.

Lemma skip_url_false_not_visited (w : world) (st : scraper) (url : string) :
  skip_url w st url = false -> url ∉ visited_urls st.
Proof.
  unfold skip_url. intros [H _]%orb_false_elim.
  by apply bool_decide_eq_false in H.
Qed.

Lemma pass_invariant (w : world) (st0 st st' : scraper) (url : string)
    (rest : list string) (r : outcome pass) :
  queue st = url :: rest ->
  crawl_invariant w st0 st ->
  (set_queue rest;; loop_body w url) st = (r, st') ->
  crawl_invariant w st0 st'.
Proof.
  intros Hqueue (Hcfg & Hnd & Hvis & Hq & Hdom & Hdrv & Hquit & Hcount) Hpass.
  unfold driver_logged in Hdrv.
  assert (Hrest : NoDup rest /\ forall u, u ∈ rest -> u ∈ queue st).
  { rewrite Hqueue in Hq |- *. apply NoDup_cons in Hq as [_ ?].
    split; [done|]. intros u ?. by right. }
  destruct Hrest as [Hrest Hsub].
  apply pass_spec in Hpass
    as [(_ & _ & ->)|(Hskip & _ & st1 & evs & links & Hstep & -> & Hlinks)].
  { unfold crawl_invariant. simpl. split_and!; try done. intros u ?. auto. }
  apply skip_url_false_not_visited in Hskip.
  destruct Hstep as (Hlog & Hevs & (Hb & Hr & Hc) & Hv & Hq1 & Hd & Hn & Hcnt).
  simpl in *. destruct Hcfg as (Hb0 & Hr0 & Hc0).
  assert (Hfetched : fetched (log st1) = fetched (log st) ++ [url]).
  { rewrite Hlog, !fetched_app, (fetched_page_events evs Hevs).
    by rewrite app_nil_r. }
  unfold crawl_invariant, same_config, driver_logged. simpl.
  split_and!; try congruence.
  - rewrite Hfetched. apply NoDup_app. split_and!; [done| |apply NoDup_singleton].
    intros u Hu Heq%list_elem_of_singleton. subst. by apply Hskip, Hvis.
  - intros u. rewrite Hfetched, Hv, elem_of_app, list_elem_of_singleton.
    intros [?| ->]; set_solver.
  - by apply enqueue_links_NoDup.
  - intros u [?|Hu]%enqueue_links_elem; [by apply Hdom, Hsub|].
    rewrite Forall_forall in Hlinks. apply Hlinks in Hu.
    rewrite <- Hu. symmetry. by apply is_same_domain_config.
  - rewrite Hd, Hlog, Hdrv, !elem_of_app, list_elem_of_singleton.
    split; [tauto|]. intros [[?|?]|?]; [tauto|done|tauto].
  - rewrite Hlog, !elem_of_app, list_elem_of_singleton.
    intros [[?|?]|Hin]; [done|done|].
    rewrite forallb_forall in Hevs. by apply list_elem_of_In, Hevs in Hin.
  - rewrite Hlog, !count_app.
    assert (count started [HttpGet url] = 0) as -> by done.
    destruct (decide (is_Some (driver st))) as [Hsome|Hnone].
    + rewrite (count_started_0 evs) by auto. lia.
    + rewrite (count_started_0 (log st)); [lia|]. by rewrite <- Hdrv.
Qed.

Lemma crawl_preserves (w : world) (P : scraper -> Prop) :
  (forall st url rest r st',
      queue st = url :: rest -> P st ->
      (set_queue rest;; loop_body w url) st = (r, st') -> P st') ->
  forall fuel max_pages page_count st,
    P st -> P (crawl w fuel max_pages page_count st).2.
Proof.
  intros Hpass fuel max_pages.
  induction fuel as [|fuel IH]; intros page_count st HP; simpl.
  - destruct (queue st); [done|]. by destruct (within_budget _ _).
  - destruct (queue st) as [|url rest] eqn:Hq; [done|].
    destruct (within_budget _ _); [|done].
    destruct ((set_queue rest;; loop_body w url) st) as [[[|]|e] st'] eqn:Hp;
      try (apply IH; eauto); simpl; eauto.
Qed.

Lemma crawl_invariant_holds (w : world) (st0 st : scraper) fuel max_pages page_count :
  crawl_invariant w st0 st ->
  crawl_invariant w st0 (crawl w fuel max_pages page_count st).2.
Proof. apply crawl_preserves. eauto using pass_invariant. Qed.

(** ** Robots policy *)

(** C3. When reading the robots policy raised in [__init__], then at every
    point of the crawl the flag [robot_parser_completed] is still false, the
    robots test of the loop rejects no URL, whatever the policy parser would
    answer, and a URL is skipped exactly when it was already visited. *)
Theorem robots_fail_open (w : world) (base : string) (robots : bool)
    (st0 : scraper) (fuel : nat) (max_pages : option Z) :
  robots_read w = false ->
  __init__ w base robots = Some st0 ->
  let st := (crawl w fuel max_pages 0 st0).2 in
  robot_parser_completed st = false
  /\ forall url,
       robots_disallows w st url = false
       /\ skip_url w st url = bool_decide (url ∈ visited_urls st).
Proof.
  intros Hread Hinit st.
  assert (Hflag : robot_parser_completed st = false).
  { pose proof (crawl_invariant_holds w st0 st0 fuel max_pages 0
                  (init_invariant _ _ _ _ Hinit)) as ((_ & _ & Hc) & _).
    fold st in Hc. rewrite Hc. unfold __init__ in Hinit.
    destruct (Urllib.urlparse _ _ _); [|done]. by simplify_eq. }
  split; [done|]. intros url. unfold skip_url, robots_disallows.
  rewrite Hflag. simpl. by rewrite orb_false_r.
Qed.

(** ** Deduplication *)

(** C4. In a crawl started by [__init__], the URLs handed to the fetch step
    are pairwise distinct and all in the visited set; and a pass of the loop
    either fetches nothing, or fetches the dequeued URL, which was not in the
    visited set before the pass and is in it when the request is made and
    after the pass. *)
Theorem no_url_fetched_twice (w : world) (base : string) (robots : bool)
    (st0 : scraper) (fuel : nat) (max_pages : option Z) :
  __init__ w base robots = Some st0 ->
  let st := (crawl w fuel max_pages 0 st0).2 in
  NoDup (fetched (log st))
  /\ (forall url, url ∈ fetched (log st) -> url ∈ visited_urls st)
  /\ forall st1 st2 url rest r,
       (set_queue rest;; loop_body w url) st1 = (r, st2) ->
       (skip_url w st1 url = true /\ log st2 = log st1)
       \/ ((url ∉ visited_urls st1)
           /\ let st_fetch :=
                with_visited_urls (with_queue st1 rest)
                  ({[url]} ∪ visited_urls st1) in
              url ∈ visited_urls st_fetch
              /\ url ∈ visited_urls st2
              /\ exists evs,
                   log st2 = log st_fetch ++ HttpGet url :: evs
                   /\ fetched evs = []).
Proof.
  intros Hinit st.
  pose proof (crawl_invariant_holds w st0 st0 fuel max_pages 0
                (init_invariant _ _ _ _ Hinit)) as (_ & Hnd & Hvis & _).
  split_and!; [done|done|].
  intros st1 st2 url rest r Hpass.
  apply pass_spec in Hpass
    as [(Hskip & _ & ->)|(Hskip & _ & st' & evs & links & Hstep & -> & _)].
  { by left. }
  right. split; [by apply skip_url_false_not_visited in Hskip|].
  destruct Hstep as (Hlog & Hevs & _ & Hv & _). simpl in *.
  split_and!; [set_solver|set_solver|]. exists evs.
  split; [by rewrite Hlog, <- app_assoc|by apply fetched_page_events].
Qed.

(** ** Domain scoping *)

Lemma is_same_domain_netloc (w : world) (st : scraper) (url : string) :
  is_same_domain w st url = Some true -> same_netloc w (base_url st) url.
Proof.
  unfold is_same_domain, same_netloc.
  destruct (Urllib.urlparse _ (base_url st) _) as [b|]; [|done]. simpl.
  destruct (Urllib.urlparse _ url _) as [p|]; [|done]. simpl.
  intros [= Heq%String.eqb_eq]. by exists b, p.
Qed.

(** C5. Every link returned by [extract_links] has the network location of
    the base URL, and in a crawl started by [__init__] every URL of the queue,
    at every point of the crawl, has the network location of the base URL. *)
Theorem links_stay_on_base_netloc (w : world) :
  (forall st html_content links link,
      extract_links w st html_content = Some links ->
      link ∈ links -> same_netloc w (base_url st) link)
  /\ (forall base robots st0 fuel max_pages url,
        __init__ w base robots = Some st0 ->
        url ∈ queue (crawl w fuel max_pages 0 st0).2 ->
        same_netloc w base url).
Proof.
  split.
  - intros st html links link Hlinks Hin.
    apply extract_links_spec in Hlinks. rewrite Forall_forall in Hlinks.
    destruct (Hlinks _ Hin) as (_ & _ & _ & _ & _ & _ & Hsame).
    by apply is_same_domain_netloc.
  - intros base robots st0 fuel max_pages url Hinit Hin.
    pose proof (crawl_invariant_holds w st0 st0 fuel max_pages 0
                  (init_invariant _ _ _ _ Hinit)) as (_ & _ & _ & _ & Hdom & _).
    apply Hdom, is_same_domain_netloc in Hin.
    unfold __init__ in Hinit. destruct (Urllib.urlparse _ _ _); [|done].
    by simplify_eq.
Qed.

(** ** The loop, one pass at a time *)

Lemma crawl_step (w : world) (fuel : nat) (max_pages : option Z) (page_count : Z)
    (st : scraper) (url : string) (rest : list string) :
  queue st = url :: rest ->
  within_budget max_pages page_count = true ->
  crawl w (S fuel) max_pages page_count st =
    match (set_queue rest;; loop_body w url) st with
    | (Return Skipped, st') => crawl w fuel max_pages page_count st'
    | (Return Counted, st') => crawl w fuel max_pages (page_count + 1) st'
    | (Raise e, st') => (Propagated e, page_count, st')
    end.
Proof. intros Hq Hb. simpl. by rewrite Hq, Hb. Qed.

Lemma crawl_stops (w : world) (fuel : nat) (max_pages : option Z) (page_count : Z)
    (st : scraper) :
  queue st = [] \/ within_budget max_pages page_count = false ->
  crawl w fuel max_pages page_count st = (Completed, page_count, st).
Proof.
  intros H. destruct fuel; simpl; destruct (queue st); try done;
    destruct H as [?| Hb]; try done; by rewrite Hb.
Qed.

(** With a page budget the loop ends: a skipped URL shortens the queue, a
    counted one uses up budget. *)
Lemma crawl_terminates (w : world) (m : Z) (n : nat) :
  forall page_count st,
    Z.to_nat (m - page_count) <= n ->
    exists fuel, (crawl w fuel (Some m) page_count st).1.1 <> Running.
Proof.
  induction n as [|n IHn]; intros page_count st Hn.
  - exists 0. rewrite crawl_stops; [done|]. right. simpl. lia.
  - remember (length (queue st)) as len eqn:Hlen. revert st Hlen.
    induction len as [|len IHlen]; intros st Hlen.
    + exists 0. rewrite crawl_stops; [done|]. left.
      by destruct (queue st).
    + destruct (queue st) as [|url rest] eqn:Hq; [done|].
      destruct (within_budget (Some m) page_count) eqn:Hb.
      2: { exists 0. rewrite crawl_stops; [done|]. by right. }
      destruct ((set_queue rest;; loop_body w url) st) as [[[|]|e] st'] eqn:Hp.
      * pose proof Hp as Hspec. apply pass_spec in Hspec as [(_ & _ & ->)|(_ & ? & _)];
          [|done].
        destruct (IHlen (with_queue st rest)) as [fuel Hfuel].
        { simpl in *. congruence. }
        exists (S fuel). by rewrite (crawl_step _ _ _ _ _ _ _ Hq Hb), Hp.
      * destruct (IHn (page_count + 1)%Z st') as [fuel Hfuel].
        { simpl in Hb. lia. }
        exists (S fuel). by rewrite (crawl_step _ _ _ _ _ _ _ Hq Hb), Hp.
      * exists 1. by rewrite (crawl_step _ _ _ _ _ _ _ Hq Hb), Hp.
Qed.

(** ** Release of the browser *)

(** C7. In a crawl started by [__init__], on every way out of the loop (the
    queue is empty, the budget is used up, or an exception leaves the body)
    the browser is released exactly as often as a start of Chrome succeeded,
    which is at most once, and the release is the last event of the run; a
    handle exists at the end exactly when Chrome was started.  With a page
    budget the run does end. *)
Theorem driver_released_exactly_once (w : world) (base : string) (robots : bool)
    (st0 : scraper) :
  __init__ w base robots = Some st0 ->
  (forall fuel max_pages s page_count st,
      scrape w fuel max_pages st0 = (s, page_count, st) ->
      s <> Running ->
      count released (log st) = count started (log st)
      /\ count started (log st) <= 1
      /\ (is_Some (driver st) <-> ChromeStart true ∈ log st)
      /\ (ChromeStart true ∈ log st -> last (log st) = Some DriverQuit))
  /\ (forall m, exists fuel s page_count st,
        scrape w fuel (Some m) st0 = (s, page_count, st) /\ s <> Running).
Proof.
  intros Hinit. split.
  - intros fuel max_pages s page_count st Hscrape Hs.
    pose proof (crawl_invariant_holds w st0 st0 fuel max_pages 0
                  (init_invariant _ _ _ _ Hinit))
      as (_ & _ & _ & _ & _ & Hdrv & Hquit & Hcount).
    unfold scrape in Hscrape.
    destruct (crawl w fuel max_pages 0 st0) as [[s1 pc1] st1]. simpl in *.
    assert (Hrel : count released (log st1) = 0).
    { apply count_0. intros e He. destruct e; try done. }
    assert (Hst : st = (cleanup st1).2 /\ s = s1) by (destruct s1; by simplify_eq).
    destruct Hst as [-> ->]. clear Hscrape.
    unfold driver_logged in Hdrv. unfold cleanup. run_monad.
    destruct (driver st1) as [d|] eqn:Hd; simpl.
    + assert (Hin : ChromeStart true ∈ log st1) by (apply Hdrv; eauto).
      rewrite !count_app, Hrel. simpl.
      assert (count started (log st1) = 1) as ->.
      { destruct (decide (count started (log st1) = 0)) as [H0|]; [|lia].
        exfalso. unfold count in H0. apply length_zero_iff_nil in H0.
        assert (Hf : ChromeStart true ∈ List.filter started (log st1)).
        { apply list_elem_of_In, filter_In. split; [by apply list_elem_of_In|done]. }
        rewrite H0 in Hf. by apply elem_of_nil in Hf. }
      rewrite Hd. split_and!; [done|done| |].
      * split; [intros _; apply elem_of_app; by left|eauto].
      * intros _. by rewrite last_snoc.
    + rewrite Hrel, Hd. split_and!; [|done|done|].
      * symmetry. apply count_started_0. intros Hin. apply Hdrv in Hin.
        by destruct Hin.
      * intros Hin. apply Hdrv in Hin. by destruct Hin.
  - intros m. destruct (crawl_terminates w m (Z.to_nat (m - 0)) 0 st0) as [fuel Hf];
      [done|].
    exists fuel. unfold scrape.
    destruct (crawl w fuel (Some m) 0 st0) as [[s1 pc1] st1].
    simpl in Hf. destruct s1; [| |done]; eauto 10.
Qed.

(** ** The page budget *)

Lemma pass_without_content (w : world) (st st1 : scraper) (url : string)
    (rest : list string) (html_content : option string) :
  skip_url w st url = false ->
  get_page_content w url
    (with_visited_urls (with_queue st rest) ({[url]} ∪ visited_urls st))
    = (Return html_content, st1) ->
  no_content html_content = true ->
  (set_queue rest;; loop_body w url) st = (Return Counted, st1).
Proof.
  intros Hskip Hget Hnone.
  unfold loop_body, set_queue, set_visited_urls, modify, gets, mbind, mret,
    M_bind, M_ret. simpl.
  change (skip_url w (with_queue st rest) url) with (skip_url w st url).
  rewrite Hskip.
  change (visited_urls (with_queue st rest)) with (visited_urls st).
  by rewrite Hget, Hnone.
Qed.

(** C10. A pass of the loop that skips its URL (already visited, or
    disallowed by robots) logs nothing and leaves the page counter as it is;
    every other pass that returns adds one to the counter, also when the
    fetch returned [None] or an empty page and no row was written.  So a crawl
    whose seed answers with a status other than 200 ends with its budget of
    one page used up and nothing but the header in the sink. *)
Theorem budget_counts_attempts (w : world) :
  (forall fuel max_pages page_count st url rest r st',
      queue st = url :: rest ->
      within_budget max_pages page_count = true ->
      (set_queue rest;; loop_body w url) st = (r, st') ->
      match r with
      | Return Skipped =>
          skip_url w st url = true /\ log st' = log st
          /\ crawl w (S fuel) max_pages page_count st
             = crawl w fuel max_pages page_count st'
      | Return Counted =>
          skip_url w st url = false
          /\ crawl w (S fuel) max_pages page_count st
             = crawl w fuel max_pages (page_count + 1) st'
      | Raise e =>
          skip_url w st url = false
          /\ crawl w (S fuel) max_pages page_count st
             = (Propagated e, page_count, st')
      end)
  /\ (forall st st1 url rest html_content,
        skip_url w st url = false ->
        get_page_content w url
          (with_visited_urls (with_queue st rest) ({[url]} ∪ visited_urls st))
          = (Return html_content, st1) ->
        no_content html_content = true ->
        (set_queue rest;; loop_body w url) st = (Return Counted, st1))
  /\ (forall base robots st0 status_code text fuel,
        __init__ w base robots = Some st0 ->
        robots_disallows w st0 base = false ->
        requests_get w (log st0) base = Response status_code text ->
        status_code <> 200%Z ->
        exists st,
          scrape w (S fuel) (Some 1%Z) st0 = (Completed, 1%Z, st)
          /\ log st = [CsvHeader; HttpGet base]).
Proof.
  split_and!.
  - intros fuel max_pages page_count st url rest r st' Hq Hb Hp.
    rewrite (crawl_step _ _ _ _ _ _ _ Hq Hb), Hp.
    apply pass_spec in Hp as [(Hskip & -> & ->)|(Hskip & Hr & _)].
    + done.
    + by destruct r as [[|]|e].
  - apply pass_without_content.
  - intros base robots st0 status_code text fuel Hinit Hrobots Hget Hcode.
    unfold __init__ in Hinit. destruct (Urllib.urlparse _ _ _); [|done].
    simplify_eq. simpl in *.
    set (st0 := mkScraper base robots ∅ [base] (robots_read w) None false [CsvHeader]) in *.
    assert (Hskip : skip_url w st0 base = false).
    { unfold skip_url. rewrite Hrobots, orb_false_r.
      apply bool_decide_eq_false. set_solver. }
    pose proof (pass_without_content w st0 _ base [] None Hskip
                  (get_page_content_non_200 w
                     (with_visited_urls (with_queue st0 []) ({[base]} ∪ ∅))
                     base status_code text Hget Hcode)
                  eq_refl) as Hpass.
    eexists. unfold scrape.
    rewrite (crawl_step w fuel (Some 1%Z) 0 st0 base []) by done.
    rewrite Hpass. rewrite crawl_stops by (by right). simpl. done.
Qed.

(** * The claims on concrete sites *)

Import Scenario.

(** ** One-shot rendering *)

(** C1. On a site of two pages that both trigger the rendering heuristic,
    with a Chrome that fails to start, the crawl tries to start Chrome once
    for each page: the failed start of the first page is attempted again for
    the second, and [tried_selenium] is still false at the end. *)
Theorem failed_start_is_retried :
  __init__ chrome_never_starts "http://example.com/" true
    = Some (fresh "http://example.com/" true)
  /\ exists st,
       scrape chrome_never_starts 3 None (fresh "http://example.com/" true)
         = (Completed, 2%Z, st)
       /\ log st =
            [CsvHeader;
             HttpGet "http://example.com/"; SeleniumImport true;
             ChromeStart false; CsvRow "http://example.com/" "next";
             HttpGet "http://example.com/b"; SeleniumImport true;
             ChromeStart false; CsvRow "http://example.com/b" "next"]
       /\ count start_attempt (log st) = 2
       /\ tried_selenium st = false.
Proof.
  split; [reflexivity|].
  eexists. split; [vm_compute; reflexivity|]. by vm_compute.
Qed.

(** ** Link resolution *)

(** C2, as stated, fails: the crawl of [nested_site] fetches the page
    [http://example.com/docs/index.html], whose markup holds the relative
    reference [guide.html], and enqueues [http://example.com/guide.html]; the
    reference was not resolved against the URL of its page. *)
Lemma links_not_resolved_against_page :
  (exists st,
      scrape nested_site 2 (Some 2%Z) (fresh "http://example.com/" true)
        = (Completed, 2%Z, st)
      /\ fetched (log st)
           = ["http://example.com/"; "http://example.com/docs/index.html"]
      /\ queue st = ["http://example.com/guide.html"])
  /\ ~ resolved_against nested_site (fresh "http://example.com/" true)
         "http://example.com/docs/index.html" "docs".
Proof.
  split.
  - eexists. split; [vm_compute; reflexivity|]. by vm_compute.
  - intros H.
    destruct (H ["http://example.com/guide.html"] "http://example.com/guide.html")
      as (href & Hin & Hlink).
    + by vm_compute.
    + by left.
    + assert (Hrefs : anchor_hrefs (bs_parse nested_site "docs") = ["guide.html"])
        by by vm_compute.
      rewrite Hrefs in Hin. apply list_elem_of_singleton in Hin. subst href.
      destruct Hlink as [Heq|Hjoin]; [done|].
      vm_compute in Hjoin. done.
Qed.

(** ** Normalization *)

(** C8, as stated, fails: for a base URL written without a scheme,
    normalizing [c] gives [example.com/a/c], and normalizing that again
    gives another string. *)
Lemma normalize_not_idempotent :
  __init__ all_not_found "example.com/a/b" true = Some (fresh "example.com/a/b" false)
  /\ normalize_url all_not_found (fresh "example.com/a/b" false) "c"
       = Some "example.com/a/c"
  /\ normalize_twice all_not_found (fresh "example.com/a/b" false) "c"
       = Some "example.com/a/example.com/a/c"
  /\ normalize_twice all_not_found (fresh "example.com/a/b" false) "c"
       <> normalize_url all_not_found (fresh "example.com/a/b" false) "c".
Proof. split_and!; by vm_compute. Qed.

(** C2, amended. Every link returned by [extract_links] comes from a
    reference of the page that is not skipped, and is that reference itself
    when it starts with [http], and otherwise the reference joined to the
    base URL of the crawl, whatever page it was found on. *)
Theorem links_resolved_against_base (w : world) (st : scraper)
    (html_content : option string) (links : list string) (link : string) :
  extract_links w st html_content = Some links ->
  link ∈ links ->
  exists html href,
    html_content = Some html
    /\ href ∈ anchor_hrefs (bs_parse w html)
    /\ skipped_href href = false
    /\ ((PyStr.startswith href "http" = true /\ link = href)
        \/ (PyStr.startswith href "http" = false
            /\ Urllib.urljoin (ip_address_is_v6 w) (base_url st) href = Some link)).
Proof.
  intros Hlinks Hin. apply extract_links_spec in Hlinks.
  rewrite Forall_forall in Hlinks.
  destruct (Hlinks _ Hin) as (html & href & -> & Hhref & Hskip & Hnorm & _).
  exists html, href. split_and!; [done|done|done|].
  unfold normalize_url in Hnorm.
  destruct (PyStr.startswith href "http"); [left|right]; by simplify_eq.
Qed.

(** ** Shape of what [urljoin] returns *)

Lemma prefix_append (p s t : string) :
  String.prefix p s = true -> String.prefix p (String.append s t) = true.
Proof.
  revert s. induction p as [|c p IH]; intros s H;
    [by destruct (String.append s t)|].
  destruct s as [|d s]; [done|].
  change (String.append (String d s) t) with (String d (String.append s t)).
  simpl in *. destruct (ascii_dec c d); [by apply IH|done].
Qed.

Lemma append_assoc (a b c : string) :
  String.append (String.append a b) c = String.append a (String.append b c).
Proof.
  induction a as [|x a IH]; [done|].
  change (String x (String.append (String.append a b) c)
          = String x (String.append a (String.append b c))).
  by rewrite IH.
Qed.

Lemma urlunsplit_prefix (p scheme netloc url query fragment : string) :
  PyStr.falsy scheme = false ->
  String.prefix p (String.append scheme ":") = true ->
  String.prefix p
    (Urllib.urlunsplit (Urllib.mkSplit scheme netloc url query fragment)) = true.
Proof.
  intros Hscheme Hp. unfold Urllib.urlunsplit. rewrite Hscheme. simpl negb.
  cbv iota.
  set (body := if _ : bool then _ else url).
  assert (H1 : String.prefix p (String.append scheme (String.append ":" body)) = true).
  { rewrite <- append_assoc. by apply prefix_append. }
  destruct (negb (PyStr.falsy query)), (negb (PyStr.falsy fragment));
    first [ exact H1
          | apply prefix_append;
            first [exact H1 | apply prefix_append; exact H1] ].
Qed.

Lemma urlunparse_prefix (p scheme netloc url params query fragment : string) :
  PyStr.falsy scheme = false ->
  String.prefix p (String.append scheme ":") = true ->
  String.prefix p
    (Urllib.urlunparse
       (Urllib.mkParse scheme netloc url params query fragment)) = true.
Proof. intros. unfold Urllib.urlunparse. by apply urlunsplit_prefix. Qed.

(** [urljoin] returns the reference, or the base, or a URL put together by
    [urlunparse] under the scheme of the base. *)
Lemma urljoin_shape (ip : string -> bool) (base url joined : string) :
  Urllib.urljoin ip base url = Some joined ->
  joined = url \/ joined = base
  \/ exists b netloc path params query fragment,
       Urllib.urlparse ip base "" = Some b
       /\ joined = Urllib.urlunparse
                     (Urllib.mkParse (Urllib.scheme b) netloc path params
                        query fragment).
Proof.
  unfold Urllib.urljoin.
  destruct (PyStr.falsy base); [intros [= <-]; by left|].
  destruct (PyStr.falsy url); [intros [= <-]; right; by left|].
  destruct (Urllib.urlparse ip base "") as [[bscheme bnetloc bpath bparams bquery bfragment]|];
    [|done].
  destruct (Urllib.urlparse ip url bscheme) as [[scheme netloc path params query fragment]|];
    [|done].
  destruct (String.eqb scheme bscheme) eqn:Heq; cbn [negb orb];
    [|intros [= <-]; by left].
  apply String.eqb_eq in Heq. subst scheme.
  destruct (PyStr.mem bscheme Urllib.uses_relative); cbn [negb];
    [|intros [= <-]; by left].
  destruct (PyStr.mem bscheme Urllib.uses_netloc && negb (PyStr.falsy netloc));
    [intros [= <-]; right; right; simpl; eauto 10|].
  cbv zeta. destruct (PyStr.falsy path && PyStr.falsy params);
    intros [= <-]; right; right; simpl; eauto 10.
Qed.

(** C8, amended. When the base URL of the crawl starts with [http] and
    [urlparse] reads its scheme as [http] or [https], normalizing the result
    of a normalization returns it unchanged, and a reference on which
    normalization raises is left raising. *)
Theorem normalize_idempotent_http (w : world) (st : scraper) (b : Urllib.ParseResult)
    (url : string) :
  PyStr.startswith (base_url st) "http" = true ->
  Urllib.urlparse (ip_address_is_v6 w) (base_url st) "" = Some b ->
  Urllib.scheme b = "http" \/ Urllib.scheme b = "https" ->
  normalize_twice w st url = normalize_url w st url.
Proof.
  intros Hbase Hparse Hscheme. unfold normalize_twice.
  destruct (normalize_url w st url) as [joined|] eqn:Hnorm; [|done]. simpl.
  unfold normalize_url in *.
  destruct (PyStr.startswith url "http") eqn:Hurl.
  { simplify_eq. by rewrite Hurl. }
  destruct (urljoin_shape _ _ _ _ Hnorm)
    as [->|[->|(b' & nl & p & pr & q & f & Hb' & ->)]].
  - by rewrite Hurl.
  - by rewrite Hbase.
  - rewrite Hparse in Hb'. simplify_eq.
    unfold PyStr.startswith. rewrite urlunparse_prefix; [done| |];
      destruct Hscheme as [-> | ->]; done.
Qed.

(** * The theorems at work on the concrete sites *)

Lemma non_200_is_terminal_witness :
  requests_get all_not_found (log (fresh "http://example.com/" false))
    "http://example.com/" = Response 404 ""
  /\ 404%Z <> 200%Z
  /\ get_page_content all_not_found "http://example.com/"
       (fresh "http://example.com/" false)
     = (Return None,
        logged (fresh "http://example.com/" false) [HttpGet "http://example.com/"]).
Proof.
  split_and!; [reflexivity|discriminate|].
  apply (non_200_is_terminal all_not_found _ _ 404%Z "");
    [reflexivity|discriminate].
Defined.

Lemma robots_fail_open_witness :
  robots_read all_not_found = false
  /\ __init__ all_not_found "http://example.com/" true
       = Some (fresh "http://example.com/" false)
  /\ robot_parser_completed
       (crawl all_not_found 2 None 0 (fresh "http://example.com/" false)).2 = false
  /\ robots_disallows all_not_found
       (crawl all_not_found 2 None 0 (fresh "http://example.com/" false)).2
       "http://example.com/private" = false.
Proof.
  split_and!; [reflexivity|reflexivity| |];
    destruct (robots_fail_open all_not_found "http://example.com/" true
                (fresh "http://example.com/" false) 2 None eq_refl eq_refl)
      as [Hflag Hall];
    [exact Hflag|exact (proj1 (Hall "http://example.com/private"))].
Defined.

Lemma no_url_fetched_twice_witness :
  __init__ static_site "http://example.com/" true
    = Some (fresh "http://example.com/" true)
  /\ NoDup (fetched
              (log (crawl static_site 3 None 0 (fresh "http://example.com/" true)).2)).
Proof.
  split; [reflexivity|].
  exact (proj1 (no_url_fetched_twice static_site "http://example.com/" true
                  (fresh "http://example.com/" true) 3 None eq_refl)).
Defined.

Lemma links_stay_on_base_netloc_witness :
  __init__ nested_site "http://example.com/" true
    = Some (fresh "http://example.com/" true)
  /\ "http://example.com/guide.html"
       ∈ queue (crawl nested_site 2 None 0 (fresh "http://example.com/" true)).2
  /\ same_netloc nested_site "http://example.com/" "http://example.com/guide.html".
Proof.
  assert (Hin : "http://example.com/guide.html"
       ∈ queue (crawl nested_site 2 None 0 (fresh "http://example.com/" true)).2).
  { vm_compute. constructor. }
  split_and!; [reflexivity|exact Hin|].
  exact (proj2 (links_stay_on_base_netloc nested_site) "http://example.com/" true
           (fresh "http://example.com/" true) 2 None
           "http://example.com/guide.html" eq_refl Hin).
Defined.

Lemma driver_released_exactly_once_witness :
  __init__ rendering_site "http://example.com/" true
    = Some (fresh "http://example.com/" true)
  /\ (scrape rendering_site 3 None (fresh "http://example.com/" true)).1
       = (Completed, 2%Z)
  /\ count released
       (log (scrape rendering_site 3 None (fresh "http://example.com/" true)).2) = 1
  /\ last (log (scrape rendering_site 3 None (fresh "http://example.com/" true)).2)
       = Some DriverQuit.
Proof.
  assert (Hrun : scrape rendering_site 3 None (fresh "http://example.com/" true)
            = (Completed, 2%Z,
               (scrape rendering_site 3 None (fresh "http://example.com/" true)).2)).
  { vm_compute. reflexivity. }
  destruct (proj1 (driver_released_exactly_once rendering_site "http://example.com/"
                     true (fresh "http://example.com/" true) eq_refl)
              3 None Completed 2%Z _ Hrun)
    as (Hcount & _ & _ & Hlast); [discriminate|].
  split_and!; [reflexivity|by rewrite Hrun| |].
  - rewrite Hcount. vm_compute. reflexivity.
  - apply Hlast. vm_compute. do 3 apply list_elem_of_further.
    apply list_elem_of_here.
Defined.

Lemma budget_counts_attempts_witness :
  __init__ all_not_found "http://example.com/" true
    = Some (fresh "http://example.com/" false)
  /\ robots_disallows all_not_found (fresh "http://example.com/" false)
       "http://example.com/" = false
  /\ requests_get all_not_found (log (fresh "http://example.com/" false))
       "http://example.com/" = Response 404 ""
  /\ 404%Z <> 200%Z
  /\ exists st,
       scrape all_not_found 1 (Some 1%Z) (fresh "http://example.com/" false)
         = (Completed, 1%Z, st)
       /\ log st = [CsvHeader; HttpGet "http://example.com/"].
Proof.
  split_and!; [reflexivity|reflexivity|reflexivity|discriminate|].
  apply (proj2 (proj2 (budget_counts_attempts all_not_found))
           "http://example.com/" true (fresh "http://example.com/" false)
           404%Z "" 0);
    [reflexivity|reflexivity|reflexivity|discriminate].
Defined.

Lemma links_resolved_against_base_witness :
  extract_links nested_site (fresh "http://example.com/" true) (Some "docs")
    = Some ["http://example.com/guide.html"]
  /\ "http://example.com/guide.html" ∈ ["http://example.com/guide.html"]
  /\ exists html href,
       Some "docs" = Some html
       /\ href ∈ anchor_hrefs (bs_parse nested_site html)
       /\ skipped_href href = false
       /\ ((PyStr.startswith href "http" = true
            /\ "http://example.com/guide.html" = href)
           \/ (PyStr.startswith href "http" = false
               /\ Urllib.urljoin (ip_address_is_v6 nested_site)
                    (base_url (fresh "http://example.com/" true)) href
                  = Some "http://example.com/guide.html")).
Proof.
  assert (Hlinks :
    extract_links nested_site (fresh "http://example.com/" true) (Some "docs")
      = Some ["http://example.com/guide.html"]).
  { vm_compute. reflexivity. }
  assert (Hin : "http://example.com/guide.html" ∈ ["http://example.com/guide.html"]).
  { constructor. }
  split_and!; [exact Hlinks|exact Hin|].
  exact (links_resolved_against_base nested_site _ _ _ _ Hlinks Hin).
Defined.

Lemma normalize_idempotent_http_witness :
  PyStr.startswith
    (base_url (fresh "http://example.com/a/b" true)) "http" = true
  /\ Urllib.urlparse (ip_address_is_v6 static_site)
       (base_url (fresh "http://example.com/a/b" true)) ""
     = Some (Urllib.mkParse "http" "example.com" "/a/b" "" "" "")
  /\ normalize_twice static_site (fresh "http://example.com/a/b" true) "../c"
     = normalize_url static_site (fresh "http://example.com/a/b" true) "../c".
Proof.
  split_and!; [reflexivity|reflexivity|].
  apply (normalize_idempotent_http static_site _
           (Urllib.mkParse "http" "example.com" "/a/b" "" "" ""));
    [reflexivity|reflexivity|left; reflexivity].
Defined.

(** The hypothesis of the amended C8 that the base URL itself starts with
    [http] is needed: a base URL with its scheme in capitals is what
    normalizing the empty reference returns, and normalizing it again
    rewrites the scheme. *)
Remark normalize_rewrites_capital_scheme :
  normalize_url static_site (fresh "HTTP://example.com/" true) ""
    = Some "HTTP://example.com/"
  /\ normalize_twice static_site (fresh "HTTP://example.com/" true) ""
     = Some "http://example.com/".
Proof. split; by vm_compute. Qed.

(** * Further properties of the scraper *)

(** ** The browser in one call of [get_page_content] *)

Lemma fetch_step_refl st : fetch_step st st [].
Proof.
  unfold fetch_step, count. rewrite app_nil_r. simpl.
  split_and!; try done. intros _. split; [lia|done].
Qed.

Lemma fetch_step_trans st st1 st2 evs1 evs2 :
  fetch_step st st1 evs1 -> fetch_step st1 st2 evs2 ->
  fetch_step st st2 (evs1 ++ evs2).
Proof.
  unfold fetch_step. intros (Hl1 & Hb1 & Ht1 & Hf1) (Hl2 & Hb2 & Ht2 & Hf2).
  split_and!.
  - by rewrite Hl2, Hl1, app_assoc.
  - by rewrite forallb_app, Hb1, Hb2.
  - intros Ht. destruct (Ht1 Ht) as [Ht' H1]. destruct (Ht2 Ht') as [? H2].
    split; [done|]. rewrite count_app. lia.
  - intros Hf. destruct (Hf1 Hf) as [Hc1 Hz1]. rewrite count_app.
    destruct (tried_selenium st1) eqn:Hmid.
    + destruct (Ht2 eq_refl) as [Hlast H2]. split; [lia|].
      intros Hend. congruence.
    + destruct (Hf2 eq_refl) as [Hc2 Hz2]. rewrite (Hz1 eq_refl).
      split; [lia|]. intros Hend. by rewrite (Hz2 Hend).
Qed.

Lemma render_or_fetch_step (w : world) (url : string) (fallback : option string)
    (st st' : scraper) (r : outcome (option string)) :
  render_or w url fallback st = (r, st') -> exists evs, fetch_step st st' evs.
Proof.
  unfold fetch_step. unfold render_or. run_monad. intros H.
  repeat case_match; simplify_eq/=;
    first [ exists []; split; [by rewrite app_nil_r|]
          | eexists; split; [by rewrite <- ?app_assoc|] ];
    simpl; split_and!; try done; unfold count; simpl;
    try (intros ?; split; [lia|]; intros ?; done);
    try (intros ?; split; done).
  all: intros Ht; rewrite Ht in *; done.
Qed.

(** What [render_or] returns: the fallback, or the page source the browser
    gave for this very URL, the request to the browser being the last event. *)
Lemma render_or_result (w : world) (url : string) (fallback result : option string)
    (st st' : scraper) :
  render_or w url fallback st = (Return result, st') ->
  result = fallback
  \/ exists l page_source,
       result = Some page_source
       /\ driver_get w l url = Some page_source
       /\ log st' = l ++ [DriverGet url true].
Proof.
  unfold render_or. run_monad. intros H.
  repeat case_match; simplify_eq/=; eauto 10.
Qed.

Lemma get_page_content_fetch_step (w : world) (url : string) (st st' : scraper)
    (r : outcome (option string)) :
  get_page_content w url st = (r, st') ->
  exists evs, fetch_step (logged st [HttpGet url]) st' evs.
Proof.
  unfold get_page_content, try_except, http_get, gets, emit, modify, raise,
    mbind, mret, M_bind, M_ret.
  intros H.
  destruct (requests_get w (log st) url) as [status_code text|].
  - destruct (status_code =? 200)%Z;
      [destruct (detect_javascript_content w text)|];
      try (simplify_eq; eauto using fetch_step_refl; fail).
    destruct (render_or w url (Some text) (logged st [HttpGet url]))
      as [[a|e] st1] eqn:Hr1.
    + simplify_eq. eauto using render_or_fetch_step.
    + apply render_or_fetch_step in Hr1 as [evs1 H1].
      apply render_or_fetch_step in H as [evs2 H2].
      eauto using fetch_step_trans.
  - eauto using render_or_fetch_step.
Qed.

(** X1. The markup [get_page_content] returns for a URL is the body of a
    response to that URL with status 200, or the page source the browser
    gave for that URL as the last event of the call; it is never the body of
    a response with another status. *)
Theorem content_comes_from_its_page (w : world) (url : string) (st st' : scraper)
    (content : string) :
  get_page_content w url st = (Return (Some content), st') ->
  requests_get w (log st) url = Response 200 content
  \/ exists l,
       driver_get w l url = Some content
       /\ log st' = l ++ [DriverGet url true].
Proof.
  unfold get_page_content, try_except, http_get, gets, emit, modify, raise,
    mbind, mret, M_bind, M_ret.
  intros H.
  destruct (requests_get w (log st) url) as [status_code text|].
  - destruct (Z.eqb_spec status_code 200) as [->|]; [|by simplify_eq].
    destruct (detect_javascript_content w text); [|left; by simplify_eq].
    destruct (render_or w url (Some text) (logged st [HttpGet url]))
      as [[a|e] st1] eqn:Hr1.
    + simplify_eq.
      apply render_or_result in Hr1 as [[= ->]|(l & s & [= ->] & ? & ?)];
        [by left|right; eauto].
    + apply render_or_result in H as [?|(l & s & [= ->] & ? & ?)];
        [done|right; eauto].
  - apply render_or_result in H as [?|(l & s & [= ->] & ? & ?)];
      [done|right; eauto].
Qed.

(** ** The effect of a pass that is not skipped *)

Lemma rows_app l1 l2 : rows (l1 ++ l2) = rows l1 ++ rows l2.
Proof. apply omap_app. Qed.

Lemma rows_browser_events l : forallb browser_event l = true -> rows l = [].
Proof.
  induction l as [|e l IH]; [done|]. simpl.
  intros [He Hl]%andb_prop. unfold rows. simpl.
  destruct e; try done; by apply IH.
Qed.

Lemma browser_events_are_page_events l :
  forallb browser_event l = true -> forallb page_event l = true.
Proof.
  rewrite !forallb_forall. intros H e He. apply H in He. by destruct e.
Qed.

(** A pass that does not skip its URL marks it visited, makes the request,
    lets the browser act, writes at most one row, for this URL and with the
    text of [extract_text], and appends links to the rest of the queue. *)
Lemma pass_effect (w : world) (st st' : scraper) (url : string) (rest : list string)
    (r : outcome pass) :
  skip_url w st url = false ->
  (set_queue rest;; loop_body w url) st = (r, st') ->
  exists evs written links,
    log st' = log st ++ HttpGet url :: evs ++ written
    /\ fetch_step (logged st [HttpGet url]) (with_log st' (log st ++ HttpGet url :: evs)) evs
    /\ (written = []
        \/ exists html, written = [CsvRow url (extract_text w (Some html))])
    /\ visited_urls st' = {[url]} ∪ visited_urls st
    /\ queue st' = enqueue_links ({[url]} ∪ visited_urls st) rest links
    /\ Forall (fun link => is_same_domain w st link = Some true) links
    /\ same_config st st'
    /\ (r = Return Counted \/ exists e, r = Raise e).
Proof.
  intros Hskip H.
  unfold loop_body, set_queue, set_visited_urls, modify, gets, mbind, mret,
    M_bind, M_ret in H.
  simpl in H.
  change (skip_url w (with_queue st rest) url) with (skip_url w st url) in H.
  rewrite Hskip in H.
  destruct (get_page_content w url _) as [r_g st_g] eqn:Hget.
  pose proof (get_page_content_spec _ _ _ _ _ Hget)
    as (evs & Hlog & _ & Hcfg & Hv & Hq & _).
  pose proof (get_page_content_fetch_step _ _ _ _ _ Hget)
    as (evs' & Hlog' & Hbrowser & Htried).
  simpl in Hlog, Hlog', Hv, Hq.
  assert (evs' = evs) as ->.
  { rewrite Hlog in Hlog'. rewrite <- !app_assoc in Hlog'.
    apply app_inv_head in Hlog'. by simplify_eq. }
  assert (Hfs : forall st2, tried_selenium st2 = tried_selenium st_g ->
            fetch_step (logged st [HttpGet url])
              (with_log st2 (log st ++ HttpGet url :: evs)) evs).
  { intros st2 Ht2. unfold fetch_step. simpl.
    rewrite Ht2. split_and!; [by rewrite <- app_assoc|done|apply Htried|apply Htried]. }
  assert (Hlog2 : log st_g = log st ++ HttpGet url :: evs)
    by by rewrite Hlog, <- app_assoc.
  assert (Hnone : forall st2, with_queue st2 (enqueue_links ({[url]} ∪ visited_urls st) rest [])
                              = with_queue st2 rest) by done.
  destruct r_g as [html|e].
  2: { injection H as <- <-. exists evs, [], []. rewrite app_nil_r.
       split_and!; eauto. }
  destruct (no_content html) eqn:Hcontent; simpl in H.
  { injection H as <- <-. exists evs, [], []. rewrite app_nil_r. split_and!; eauto. }
  unfold save_to_csv, gets, emit, modify, raise, mbind, mret, M_bind, M_ret in H.
  destruct (csv_append w (log st_g)).
  2: { injection H as <- <-. exists evs, [], []. rewrite app_nil_r. split_and!; eauto. }
  destruct html as [html|]; [|done].
  set (row := CsvRow url (extract_text w (Some html))) in H.
  unfold lift_value_error in H.
  destruct (extract_links w (logged st_g [row]) (Some html)) as [links|] eqn:Hlinks.
  - simpl in H. injection H as <- <-. exists evs, [row], links. simpl.
    split_and!; eauto; try (by apply Hfs);
      try (by rewrite Hlog2, <- app_assoc); try (by rewrite Hv, Hq).
    apply extract_links_spec in Hlinks.
    eapply Forall_impl; [exact Hlinks|].
    intros l (? & ? & _ & _ & _ & _ & Hsame).
    rewrite <- Hsame. symmetry. apply is_same_domain_config.
    simpl. by destruct Hcfg.
  - unfold raise in H. injection H as <- <-. exists evs, [row], []. simpl.
    split_and!; eauto; try (by apply Hfs);
      try (by rewrite Hlog2, <- app_assoc).
Qed.

(** ** A second invariant of the crawl *)

Lemma enqueue_links_new visited queue links url :
  url ∈ enqueue_links visited queue links ->
  url ∈ queue \/ (url ∈ links /\ url ∉ visited).
Proof.
  revert queue. induction links as [|l links IH]; intros queue; simpl.
  - by left.
  - intros [H|[H ?]]%IH; [|right; split; [by right|done]].
    destruct (bool_decide (l ∉ visited) && bool_decide (l ∉ queue)) eqn:Hadd;
      [|by left].
    apply elem_of_app in H as [?|Heq%list_elem_of_singleton]; [by left|].
    subst. apply andb_prop in Hadd as [Hv%bool_decide_eq_true _].
    right. split; [by left|done].
Qed.

Lemma robots_disallows_config (w : world) (st st' : scraper) (url : string) :
  same_config st st' -> robots_disallows w st' url = robots_disallows w st url.
Proof.
  intros (_ & Hr & Hc). unfold robots_disallows, can_fetch. by rewrite Hr, Hc.
Qed.

Lemma init_run_invariant (w : world) (base : string) (robots : bool) (st0 : scraper) :
  __init__ w base robots = Some st0 -> run_invariant w st0 st0.
Proof.
  unfold __init__. destruct (Urllib.urlparse _ _ _); [|done].
  intros [= <-]. unfold run_invariant, same_config, count. simpl.
  split_and!; try done.
  - apply NoDup_singleton.
  - intros url. split; [set_solver|]. intros Hin. by apply elem_of_nil in Hin.
  - intros url Hin. by apply elem_of_nil in Hin.
  - lia.
  - intros url content Hin. by apply elem_of_nil in Hin.
  - exists []. split; [done|]. apply not_elem_of_nil.
Qed.

Lemma pass_run_invariant (w : world) (st0 st st' : scraper) (url : string)
    (rest : list string) (r : outcome pass) :
  queue st = url :: rest ->
  run_invariant w st0 st ->
  (set_queue rest;; loop_body w url) st = (r, st') ->
  run_invariant w st0 st'.
Proof.
  intros Hqueue (Hcfg & Hnd & Hdis & Hvis & Hrob & Hdrv & Htried & Hrows & Htext & Hhead)
    Hpass.
  rewrite Hqueue in Hnd. apply NoDup_cons in Hnd as [Hnotin Hrest].
  assert (Hsub : forall u, u ∈ rest -> u ∈ queue st).
  { intros u ?. rewrite Hqueue. by right. }
  destruct (skip_url w st url) eqn:Hskip.
  { apply pass_spec in Hpass as [(_ & _ & ->)|(? & _)]; [|congruence].
    unfold run_invariant. simpl. split_and!; try done. intros u ?. auto. }
  pose proof (skip_url_false_not_visited _ _ _ Hskip) as Hnew.
  apply (pass_effect _ _ _ _ _ _ Hskip) in Hpass
    as (evs & written & links & Hlog & Hfetch & Hwritten & Hv & Hq & _ & Hcfg' & _).
  destruct Hfetch as (_ & Hbrowser & Hset & Hunset). simpl in Hset, Hunset.
  assert (Hfw : fetched written = [] /\ count driven written = 0
                /\ CsvHeader ∉ written).
  { destruct Hwritten as [->|[html ->]]; split_and!; try done;
      try apply not_elem_of_nil.
    intros Hin%list_elem_of_singleton. done. }
  destruct Hfw as (Hfw & Hdw & Hhw).
  assert (Hfetched : fetched (log st') = fetched (log st) ++ [url]).
  { rewrite Hlog. change (HttpGet url :: evs ++ written)
      with ([HttpGet url] ++ evs ++ written).
    rewrite !fetched_app, Hfw,
      (fetched_page_events evs (browser_events_are_page_events _ Hbrowser)).
    by rewrite !app_nil_r. }
  assert (Hrows' : rows (log st') = rows (log st) ++ rows written).
  { rewrite Hlog. change (HttpGet url :: evs ++ written)
      with ([HttpGet url] ++ evs ++ written).
    by rewrite !rows_app, (rows_browser_events evs Hbrowser). }
  assert (Hdriven : count driven (log st') = count driven (log st) + count driven evs).
  { rewrite Hlog. change (HttpGet url :: evs ++ written)
      with ([HttpGet url] ++ evs ++ written).
    rewrite !count_app, Hdw. unfold count at 2. simpl. lia. }
  unfold run_invariant. split_and!.
  - destruct Hcfg as (?&?&?), Hcfg' as (?&?&?). unfold same_config.
    split_and!; congruence.
  - rewrite Hq. by apply enqueue_links_NoDup.
  - intros u. rewrite Hq, Hv. intros [Hin|[_ Hout]]%enqueue_links_new; [|done].
    apply not_elem_of_union. split.
    + intros Heq%elem_of_singleton. by subst.
    + by apply Hdis, Hsub.
  - intros u. rewrite Hv, Hfetched, elem_of_union, elem_of_app, elem_of_singleton,
      list_elem_of_singleton, Hvis. tauto.
  - intros u. rewrite Hfetched, elem_of_app, list_elem_of_singleton.
    intros [?| ->]; [by apply Hrob|].
    rewrite <- (robots_disallows_config w st0 st url Hcfg).
    unfold skip_url in Hskip. by apply orb_false_elim in Hskip as [_ ?].
  - rewrite Hdriven. destruct (tried_selenium st) eqn:Ht.
    + destruct (Hset eq_refl) as [_ ->]. lia.
    + destruct (Hunset eq_refl) as [? _]. rewrite (Htried eq_refl). lia.
  - intros Hend. rewrite Hdriven. destruct (tried_selenium st) eqn:Ht.
    + destruct (Hset eq_refl) as [Hyes _]. congruence.
    + destruct (Hunset eq_refl) as [_ Hz]. rewrite (Htried eq_refl), (Hz Hend). lia.
  - rewrite Hrows', Hfetched, fmap_app. apply sublist_app; [done|].
    destruct Hwritten as [->|[html ->]]; simpl; [apply sublist_nil_l|done].
  - intros u c. rewrite Hrows', elem_of_app. intros [?|Hin]; [by eapply Htext|].
    destruct Hwritten as [->|[html ->]]; simpl in Hin.
    + by apply elem_of_nil in Hin.
    + apply list_elem_of_singleton in Hin. simplify_eq. by exists html.
  - destruct Hhead as (l & Hl & Hnone). exists (l ++ HttpGet url :: evs ++ written).
    split; [by rewrite Hlog, Hl|].
    rewrite elem_of_app, elem_of_cons, elem_of_app.
    intros [?|[?|[Hin|?]]]; [done|done| |done].
    rewrite forallb_forall in Hbrowser.
    by apply list_elem_of_In, Hbrowser in Hin.
Qed.

Lemma run_invariant_holds (w : world) (st0 st : scraper) fuel max_pages page_count :
  run_invariant w st0 st ->
  run_invariant w st0 (crawl w fuel max_pages page_count st).2.
Proof. apply crawl_preserves. eauto using pass_run_invariant. Qed.

(** ** The page counter *)

Lemma pass_fetched (w : world) (st st' : scraper) (url : string) (rest : list string)
    (r : outcome pass) :
  (set_queue rest;; loop_body w url) st = (r, st') ->
  match r with
  | Return Skipped => fetched (log st') = fetched (log st)
  | _ => fetched (log st') = fetched (log st) ++ [url]
  end.
Proof.
  intros Hpass. destruct (skip_url w st url) eqn:Hskip.
  - apply pass_spec in Hpass as [(_ & -> & ->)|(? & _)]; [done|congruence].
  - pose proof Hpass as Hr.
    apply pass_spec in Hr as [(? & _)|(_ & Hr & _)]; [congruence|].
    apply (pass_effect _ _ _ _ _ _ Hskip) in Hpass
      as (evs & written & links & Hlog & (_ & Hbrowser & _) & Hwritten & _).
    assert (fetched (log st') = fetched (log st) ++ [url]) as Hf.
    { rewrite Hlog. change (HttpGet url :: evs ++ written)
        with ([HttpGet url] ++ evs ++ written).
      rewrite !fetched_app,
        (fetched_page_events evs (browser_events_are_page_events _ Hbrowser)).
      destruct Hwritten as [->|[html ->]]; by rewrite ?app_nil_r. }
    by destruct r as [[|]|].
Qed.

(** The counter and the requests move together: a counted pass adds one to
    both, a skipped pass to neither, and a pass that raises made its request
    without being counted.  The loop ends normally only on an empty queue or a
    used-up budget, and an exception leaves it only within the budget. *)
Lemma crawl_counter (w : world) (fuel : nat) (max_pages : option Z) :
  forall page_count st s page_count' st',
    crawl w fuel max_pages page_count st = (s, page_count', st') ->
    (page_count <= page_count')%Z
    /\ length (fetched (log st')) =
         (length (fetched (log st)) + Z.to_nat (page_count' - page_count)
          + match s with Propagated _ => 1 | _ => 0 end)%nat
    /\ match s with
       | Completed => queue st' = [] \/ within_budget max_pages page_count' = false
       | Propagated _ => within_budget max_pages page_count' = true
       | Running => True
       end
    /\ (page_count < page_count' -> within_budget max_pages (page_count' - 1) = true)%Z.
Proof.
  induction fuel as [|fuel IH]; intros page_count st s page_count' st' Hcrawl.
  - simpl in Hcrawl. destruct (queue st) eqn:Hq.
    + simplify_eq. rewrite Z.sub_diag. split_and!; [lia|simpl; lia|by left|lia].
    + destruct (within_budget max_pages page_count) eqn:Hb; simplify_eq;
        rewrite Z.sub_diag; split_and!; try lia; simpl; try lia; auto.
  - destruct (queue st) as [|url rest] eqn:Hq.
    { rewrite crawl_stops in Hcrawl by by left. simplify_eq. rewrite Z.sub_diag.
      split_and!; [lia|simpl; lia|by left|lia]. }
    destruct (within_budget max_pages page_count) eqn:Hb.
    2: { rewrite crawl_stops in Hcrawl by by right. simplify_eq.
         rewrite Z.sub_diag. split_and!; [lia|simpl; lia|by right|lia]. }
    rewrite (crawl_step _ _ _ _ _ _ _ Hq Hb) in Hcrawl.
    destruct ((set_queue rest;; loop_body w url) st) as [r st1] eqn:Hpass.
    apply pass_fetched in Hpass. destruct r as [[|]|e].
    + apply IH in Hcrawl as (? & Hlen & ? & ?). rewrite Hpass in Hlen.
      by split_and!.
    + apply IH in Hcrawl as (? & Hlen & ? & Hlast).
      rewrite Hpass, length_app in Hlen. simpl in Hlen.
      split_and!; [lia|lia|done|].
      intros _. destruct (decide (page_count + 1 = page_count')%Z) as [<-|].
      * by replace (page_count + 1 - 1)%Z with page_count by lia.
      * apply Hlast. lia.
    + simplify_eq. rewrite Hpass, length_app, Z.sub_diag. simpl.
      split_and!; [lia|lia|done|lia].
Qed.

(** ** What a crawl started by [__init__] keeps *)

Lemma render_or_after_try (w : world) (url : string) (fallback : option string)
    (st : scraper) :
  tried_selenium st = true -> render_or w url fallback st = (Return fallback, st).
Proof. intros Ht. unfold render_or. run_monad. by rewrite Ht. Qed.

(** X2. Once [tried_selenium] is set, [get_page_content] logs nothing but
    its HTTP request: no page is rendered any more.  In a crawl started by
    [__init__] the browser is pointed at one page at most, and at none as
    long as [tried_selenium] is false. *)
Theorem browser_pointed_at_one_page (w : world) :
  (forall st url r st',
      tried_selenium st = true ->
      get_page_content w url st = (r, st') ->
      st' = logged st [HttpGet url])
  /\ (forall base robots st0 fuel max_pages,
        __init__ w base robots = Some st0 ->
        let st := (crawl w fuel max_pages 0 st0).2 in
        count driven (log st) <= 1
        /\ (tried_selenium st = false -> count driven (log st) = 0)).
Proof.
  split.
  - intros st url r st' Ht H.
    unfold get_page_content, try_except, http_get, gets, emit, modify, raise,
      mbind, mret, M_bind, M_ret in H.
    destruct (requests_get w (log st) url) as [status_code text|];
      [destruct (status_code =? 200)%Z;
       [destruct (detect_javascript_content w text)|]|];
      simpl in H;
      rewrite ?(render_or_after_try w url _ (logged st [HttpGet url]) Ht) in H;
      by simplify_eq.
  - intros base robots st0 fuel max_pages Hinit st.
    pose proof (run_invariant_holds w st0 st0 fuel max_pages 0
                  (init_run_invariant _ _ _ _ Hinit))
      as (_ & _ & _ & _ & _ & Hone & Hnone & _).
    by split.
Qed.

(** X4. In a crawl started by [__init__] the queue holds no URL twice and no
    URL that was visited, so that the test [url in self.visited_urls] of the
    loop never holds: the URL at the head of the queue is skipped exactly
    when the robots test rejects it. *)
Theorem queue_never_holds_visited (w : world) (base : string) (robots : bool)
    (st0 : scraper) (fuel : nat) (max_pages : option Z) :
  __init__ w base robots = Some st0 ->
  let st := (crawl w fuel max_pages 0 st0).2 in
  NoDup (queue st)
  /\ (forall url, url ∈ queue st -> url ∉ visited_urls st)
  /\ (forall url rest,
        queue st = url :: rest -> skip_url w st url = robots_disallows w st url).
Proof.
  intros Hinit st.
  pose proof (run_invariant_holds w st0 st0 fuel max_pages 0
                (init_run_invariant _ _ _ _ Hinit)) as (_ & Hnd & Hdis & _).
  split_and!; [done|done|].
  intros url rest Hq. unfold skip_url.
  rewrite bool_decide_eq_false_2; [done|]. apply Hdis. fold st. rewrite Hq. by left.
Qed.

(** X5. In a crawl started by [__init__] the visited set is, at every point
    of the loop, exactly the set of the URLs requested so far. *)
Theorem visited_is_what_was_requested (w : world) (base : string) (robots : bool)
    (st0 : scraper) (fuel : nat) (max_pages : option Z) (url : string) :
  __init__ w base robots = Some st0 ->
  let st := (crawl w fuel max_pages 0 st0).2 in
  url ∈ visited_urls st <-> url ∈ fetched (log st).
Proof.
  intros Hinit st.
  pose proof (run_invariant_holds w st0 st0 fuel max_pages 0
                (init_run_invariant _ _ _ _ Hinit)) as (_ & _ & _ & Hvis & _).
  apply Hvis.
Qed.

(** X6. When the robots policy was read and is respected, a URL the policy
    disallows for the scraper's user agent is never requested, the seed
    included. *)
Theorem disallowed_url_never_requested (w : world) (base : string)
    (st0 : scraper) (fuel : nat) (max_pages : option Z) (url : string) :
  robots_read w = true ->
  __init__ w base true = Some st0 ->
  robots_can_fetch w user_agent url = false ->
  url ∉ fetched (log (crawl w fuel max_pages 0 st0).2).
Proof.
  intros Hread Hinit Hdeny Hin.
  pose proof (run_invariant_holds w st0 st0 fuel max_pages 0
                (init_run_invariant _ _ _ _ Hinit)) as (_ & _ & _ & _ & Hrob & _).
  apply Hrob in Hin. unfold __init__ in Hinit.
  destruct (Urllib.urlparse _ _ _); [|done]. simplify_eq.
  unfold robots_disallows, can_fetch in Hin. simpl in Hin.
  rewrite Hread, Hdeny in Hin. done.
Qed.

(** X7. A scraper built with [respect_robots=False] never skips a URL on
    robots grounds, whatever the policy says: at every point of the crawl the
    robots test of the loop is false for every URL. *)
Theorem ignoring_robots_skips_nothing (w : world) (base : string)
    (st0 : scraper) (fuel : nat) (max_pages : option Z) (url : string) :
  __init__ w base false = Some st0 ->
  robots_disallows w (crawl w fuel max_pages 0 st0).2 url = false.
Proof.
  intros Hinit.
  pose proof (run_invariant_holds w st0 st0 fuel max_pages 0
                (init_run_invariant _ _ _ _ Hinit)) as (Hcfg & _).
  rewrite (robots_disallows_config w st0 _ url Hcfg).
  unfold __init__ in Hinit. destruct (Urllib.urlparse _ _ _); [|done].
  simplify_eq. unfold robots_disallows, can_fetch. simpl. apply andb_false_r.
Qed.

(** X8. In a crawl started by [__init__] the sink holds the header once, as
    its first line; the URLs of the rows are requested URLs, in the order of
    the requests and without repetition; and the text of every row has no two
    whitespace characters in a row and no whitespace at either end. *)
Theorem rows_follow_requests (w : world) (base : string) (robots : bool)
    (st0 : scraper) (fuel : nat) (max_pages : option Z) :
  __init__ w base robots = Some st0 ->
  let st := (crawl w fuel max_pages 0 st0).2 in
  (exists l, log st = CsvHeader :: l /\ CsvHeader ∉ l)
  /\ (rows (log st)).*1 `sublist_of` fetched (log st)
  /\ NoDup (rows (log st)).*1
  /\ (forall url content,
        (url, content) ∈ rows (log st) ->
        adjacent_whitespace content = false
        /\ leading_whitespace content = false
        /\ trailing_whitespace content = false).
Proof.
  intros Hinit st.
  pose proof (run_invariant_holds w st0 st0 fuel max_pages 0
                (init_run_invariant _ _ _ _ Hinit))
    as (_ & _ & _ & _ & _ & _ & _ & Hrows & Htext & Hhead).
  pose proof (crawl_invariant_holds w st0 st0 fuel max_pages 0
                (init_invariant _ _ _ _ Hinit)) as (_ & Hnd & _).
  split_and!; [done|done|by eapply sublist_NoDup|].
  intros url content Hin. destruct (Htext _ _ Hin) as [html ->].
  unfold extract_text. destruct (PyStr.falsy html); [done|].
  apply strip_collapse_normal.
Qed.

(** X9. A crawl with a page budget of [m] makes at most [m - page_count]
    requests from a state whose counter stands at [page_count], and none when
    the budget is zero or negative; the counter never goes down. *)
Theorem budget_bounds_requests (w : world) (fuel : nat) (m page_count page_count' : Z)
    (st st' : scraper) (s : status) :
  crawl w fuel (Some m) page_count st = (s, page_count', st') ->
  length (fetched (log st')) <= length (fetched (log st)) + Z.to_nat (m - page_count)
  /\ (page_count <= page_count')%Z.
Proof.
  intros Hcrawl. apply crawl_counter in Hcrawl as (Hle & Hlen & Hs & Hlast).
  split; [|done]. rewrite Hlen. simpl in *.
  destruct s as [|e|].
  - destruct (decide (page_count < page_count')%Z) as [Hlt|]; [|lia].
    apply Hlast in Hlt. lia.
  - lia.
  - destruct (decide (page_count < page_count')%Z) as [Hlt|]; [|lia].
    apply Hlast in Hlt. lia.
Qed.

(** X10. When the loop ends normally, the queue is empty or the budget is
    used up (the queue is empty when there is no budget), and the page
    counter went up by the number of requests made; when an exception ends
    it, one request more was made than was counted.  In a crawl started by
    [__init__] the sink holds at most as many rows as requests were made. *)
Theorem counter_is_number_of_requests (w : world) :
  (forall fuel max_pages page_count st s page_count' st',
      crawl w fuel max_pages page_count st = (s, page_count', st') ->
      length (fetched (log st')) =
        length (fetched (log st)) + Z.to_nat (page_count' - page_count)
        + match s with Propagated _ => 1 | _ => 0 end
      /\ (s = Completed ->
          queue st' = [] \/ exists m, max_pages = Some m /\ (m <= page_count')%Z))
  /\ (forall base robots st0 fuel max_pages,
        __init__ w base robots = Some st0 ->
        let st := (crawl w fuel max_pages 0 st0).2 in
        length (rows (log st)) <= length (fetched (log st))).
Proof.
  split.
  - intros fuel max_pages page_count st s page_count' st' Hcrawl.
    apply crawl_counter in Hcrawl as (_ & Hlen & Hs & _).
    split; [done|]. intros ->. destruct Hs as [?|Hb]; [by left|right].
    destruct max_pages as [m|]; [|done]. exists m. simpl in Hb. split; [done|lia].
  - intros base robots st0 fuel max_pages Hinit st.
    pose proof (run_invariant_holds w st0 st0 fuel max_pages 0
                  (init_run_invariant _ _ _ _ Hinit))
      as (_ & _ & _ & _ & _ & _ & _ & Hrows & _).
    apply sublist_length in Hrows. by rewrite length_fmap in Hrows.
Qed.

(** ** Exceptions out of [get_page_content] *)

Lemma render_or_raises (w : world) (url : string) (fallback : option string)
    (st st' : scraper) (e : exn) :
  render_or w url fallback st = (Raise e, st') ->
  e = ImportError /\ st' = logged st [SeleniumImport false].
Proof.
  unfold render_or. run_monad. intros H.
  repeat case_match; simplify_eq/=; try done.
  split; [done|].
  by match goal with H : driver _ = None |- _ => rewrite H end.
Qed.

(** X14. The only exception that leaves [get_page_content] is the
    [ImportError] of a missing Selenium, right after a failed import:
    failures of the HTTP request, of the start of Chrome and of the rendering
    are all caught. *)
Theorem only_import_error_escapes (w : world) (url : string) (st st' : scraper)
    (e : exn) :
  get_page_content w url st = (Raise e, st') ->
  e = ImportError /\ exists l, log st' = l ++ [SeleniumImport false].
Proof.
  unfold get_page_content, try_except, http_get, gets, emit, modify, raise,
    mbind, mret, M_bind, M_ret.
  intros H.
  assert (Hend : forall fb s0,
    render_or w url fb s0 = (Raise e, st') ->
    e = ImportError /\ exists l, log st' = l ++ [SeleniumImport false]).
  { intros fb s0 [-> ->]%render_or_raises. split; [done|]. by eexists. }
  destruct (requests_get w (log st) url) as [status_code text|]; [|eauto].
  destruct (status_code =? 200)%Z; [|done].
  destruct (detect_javascript_content w text); [|done].
  destruct (render_or w url (Some text) (logged st [HttpGet url]))
    as [[a|e1] st1] eqn:Hr1; [done|eauto].
Qed.

Lemma logged_logged (st : scraper) (evs1 evs2 : list event) :
  logged (logged st evs1) evs2 = logged st (evs1 ++ evs2).
Proof. unfold logged, with_log. simpl. by rewrite app_assoc. Qed.

(** X3. Without Selenium installed, a page that needs the browser (its
    request failed, or it answered 200 with markup the classifier fires on)
    makes [get_page_content] raise [ImportError], and the crawl ends there
    with that exception, the page neither counted nor written. *)
Theorem missing_selenium_aborts (w : world) (st : scraper) (url : string)
    (rest : list string) (fuel : nat) (max_pages : option Z) (page_count : Z) :
  (forall l, selenium_import w l = false) ->
  driver st = None ->
  tried_selenium st = false ->
  requests_get w (log st) url = RequestException
  \/ (exists text, requests_get w (log st) url = Response 200 text
                   /\ detect_javascript_content w text = true) ->
  queue st = url :: rest ->
  within_budget max_pages page_count = true ->
  skip_url w st url = false ->
  exists st',
    crawl w (S fuel) max_pages page_count st = (Propagated ImportError, page_count, st')
    /\ rows (log st') = rows (log st)
    /\ fetched (log st') = fetched (log st) ++ [url].
Proof.
  intros Himport Hdriver Htried Hneeds Hq Hb Hskip.
  set (st_fetch := with_visited_urls (with_queue st rest) ({[url]} ∪ visited_urls st)).
  assert (Hrender : forall fb evs,
    render_or w url fb (logged st_fetch evs)
    = (Raise ImportError, logged (logged st_fetch evs) [SeleniumImport false])).
  { intros fb evs.
    unfold render_or, selenium_ready, initialize_selenium, gets, emit, modify,
      raise, mbind, mret, M_bind, M_ret.
    simpl. rewrite Htried. simpl. rewrite Hdriver. simpl.
    by rewrite Himport. }
  assert (Hget : exists evs,
    get_page_content w url st_fetch
      = (Raise ImportError, logged st_fetch (HttpGet url :: evs))
    /\ forallb browser_event evs = true).
  { unfold get_page_content, try_except, http_get, gets, emit, modify, raise,
      mbind, mret, M_bind, M_ret.
    change (log st_fetch) with (log st).
    destruct Hneeds as [->|(text & -> & Hdetect)].
    - exists [SeleniumImport false]. by rewrite Hrender, logged_logged.
    - exists [SeleniumImport false; SeleniumImport false]. simpl.
      by rewrite Hdetect, Hrender, logged_logged, Hrender, logged_logged. }
  destruct Hget as (evs & Hget & Hevs).
  assert (Hpass : (set_queue rest;; loop_body w url) st
                  = (Raise ImportError, logged st_fetch (HttpGet url :: evs))).
  { unfold loop_body, set_queue, set_visited_urls, modify, gets, mbind, mret,
      M_bind, M_ret. simpl.
    change (skip_url w (with_queue st rest) url) with (skip_url w st url).
    rewrite Hskip.
    change (visited_urls (with_queue st rest)) with (visited_urls st).
    fold st_fetch. by rewrite Hget. }
  eexists. rewrite (crawl_step _ _ _ _ _ _ _ Hq Hb), Hpass.
  split; [done|]. simpl.
  change (HttpGet url :: evs) with ([HttpGet url] ++ evs).
  rewrite !rows_app, !fetched_app, (rows_browser_events evs Hevs),
    (fetched_page_events evs (browser_events_are_page_events _ Hevs)).
  by rewrite !app_nil_r.
Qed.

(** ** Whitespace normalization, once more *)

Lemma collapse_from_plain in_run text : plain_spaces (collapse_from in_run text) = true.
Proof.
  revert in_run. induction text as [|c rest IH]; intros in_run; simpl; [done|].
  destruct (Bs4.isspace c) eqn:Hc.
  - destruct in_run; [apply IH|]. simpl. by rewrite IH.
  - simpl. by rewrite Hc, IH.
Qed.

Lemma lstrip_plain s : plain_spaces s = true -> plain_spaces (PyStr.lstrip Bs4.isspace s) = true.
Proof.
  induction s as [|c s IH]; [done|]. intros H.
  change (PyStr.lstrip Bs4.isspace (String c s))
    with (if Bs4.isspace c then PyStr.lstrip Bs4.isspace s else String c s).
  destruct (Bs4.isspace c); [|exact H].
  apply IH. simpl in H. by apply andb_prop in H as [_ ?].
Qed.

Lemma rstrip_plain s : plain_spaces s = true -> plain_spaces (PyStr.rstrip Bs4.isspace s) = true.
Proof.
  induction s as [|c s IH]; [done|]. simpl. intros [Hc Hs]%andb_prop.
  specialize (IH Hs).
  destruct (PyStr.rstrip Bs4.isspace s) as [|b r] eqn:Hr.
  - destruct (Bs4.isspace c) eqn:Hsp; [done|]. simpl. by rewrite Hsp.
  - change (plain_spaces (String c (String b r)))
      with ((negb (Bs4.isspace c) || Ascii.eqb c " ") && plain_spaces (String b r)).
    by rewrite Hc, IH.
Qed.

Lemma collapse_from_no_run s :
  leading_whitespace s = false -> collapse_from true s = collapse_from false s.
Proof. destruct s as [|c s]; [done|]. simpl. by intros ->. Qed.

Lemma collapse_fixed s :
  plain_spaces s = true -> adjacent_whitespace s = false ->
  collapse_from false s = s.
Proof.
  induction s as [|c s IH]; [done|]. intros [Hc Hs]%andb_prop Hadj.
  rewrite adjacent_whitespace_cons in Hadj.
  apply orb_false_elim in Hadj as [Hcs Hadj]. simpl.
  destruct (Bs4.isspace c) eqn:Hsp.
  - simpl in Hc. apply Ascii.eqb_eq in Hc. subst c. simpl in Hcs.
    rewrite collapse_from_no_run by done. by rewrite IH.
  - by rewrite IH.
Qed.

Lemma lstrip_fixed s : leading_whitespace s = false -> PyStr.lstrip Bs4.isspace s = s.
Proof. destruct s as [|c s]; [done|]. simpl. by intros ->. Qed.

Lemma rstrip_fixed s : trailing_whitespace s = false -> PyStr.rstrip Bs4.isspace s = s.
Proof.
  induction s as [|c s IH]; [done|]. simpl. destruct s as [|d s].
  - simpl. by intros ->.
  - intros H. rewrite (IH H). done.
Qed.

(** X11. The whitespace normalization of [extract_text] leaves the space
    character as the only whitespace of its result, and is idempotent: a
    text that went through it comes out of it unchanged, as does every text
    [extract_text] returns. *)
Theorem normalize_whitespace_idempotent (w : world) (text : string)
    (html_content : option string) :
  plain_spaces (normalize_whitespace text) = true
  /\ normalize_whitespace (normalize_whitespace text) = normalize_whitespace text
  /\ normalize_whitespace (extract_text w html_content) = extract_text w html_content.
Proof.
  assert (Hplain : forall t, plain_spaces (normalize_whitespace t) = true).
  { intros t. apply rstrip_plain, lstrip_plain, collapse_from_plain. }
  assert (Hfix : forall t,
    normalize_whitespace (normalize_whitespace t) = normalize_whitespace t).
  { intros t. destruct (strip_collapse_normal t) as (Hadj & Hlead & Htrail).
    fold (normalize_whitespace t) in *.
    unfold normalize_whitespace at 1. unfold collapse_whitespace, PyStr.strip.
    rewrite collapse_fixed by auto. by rewrite lstrip_fixed, rstrip_fixed. }
  split_and!; [done|done|].
  unfold extract_text. destruct html_content as [html|]; [|done].
  destruct (PyStr.falsy html); [done|]. apply Hfix.
Qed.

(** ** Link extraction as a filter *)

Lemma collect_links_filter (w : world) (st : scraper) (hrefs acc links : list string) :
  collect_links w st hrefs acc = Some links ->
  links = acc ++ omap (kept_link w st) hrefs.
Proof.
  revert acc. induction hrefs as [|href hrefs IH]; intros acc H; simpl in H.
  - simplify_eq. by rewrite app_nil_r.
  - simpl. unfold kept_link at 1. destruct (skipped_href href); [by apply IH|].
    destruct (normalize_url w st href) as [full_url|]; simpl in H; [|done].
    destruct (is_same_domain w st full_url) as [[|]|]; simpl in H; [| |done].
    + apply IH in H. by rewrite <- app_assoc in H.
    + by apply IH.
Qed.

Lemma collect_links_raises (w : world) (st : scraper) (hrefs acc : list string) :
  collect_links w st hrefs acc = None <-> exists href, href ∈ hrefs /\ href_raises w st href.
Proof.
  revert acc. induction hrefs as [|href hrefs IH]; intros acc; simpl.
  - split; [done|]. intros (h & Hin & _). by apply elem_of_nil in Hin.
  - unfold href_raises in *. destruct (skipped_href href) eqn:Hskip.
    + rewrite IH. split.
      * intros (h & ? & ?). exists h. split; [by right|done].
      * intros (h & [-> |?]%elem_of_cons & Hr); [destruct Hr; congruence|eauto].
    + destruct (normalize_url w st href) as [full_url|] eqn:Hn; simpl.
      2: { split; [|done]. intros _. exists href. split; [by left|]. auto. }
      destruct (is_same_domain w st full_url) as [same|] eqn:Hs; simpl.
      2: { split; [|done]. intros _. exists href. split; [by left|]. eauto. }
      rewrite IH. split.
      * intros (h & ? & ?). exists h. split; [by right|done].
      * intros (h & [-> |?]%elem_of_cons & Hr); [|eauto].
        destruct Hr as (_ & [?|(u & ? & ?)]); congruence.
Qed.

(** X12. [extract_links] is a filter over the anchors of the page, in
    document order and without removing duplicates: when it returns, its
    result is, reference by reference, the normalized URL of each reference
    that is not skipped and has the network location of the base URL; and it
    raises exactly when [urllib.parse] raises on a reference that is not
    skipped.  Empty or missing markup gives no links. *)
Theorem extract_links_is_a_filter (w : world) (st : scraper) (html : string) :
  (forall links,
      PyStr.falsy html = false ->
      extract_links w st (Some html) = Some links ->
      links = omap (kept_link w st) (anchor_hrefs (bs_parse w html)))
  /\ (PyStr.falsy html = false ->
      (extract_links w st (Some html) = None <->
       exists href, href ∈ anchor_hrefs (bs_parse w html) /\ href_raises w st href))
  /\ extract_links w st None = Some []
  /\ extract_links w st (Some EmptyString) = Some [].
Proof.
  unfold extract_links. split_and!; [| |done|done].
  - intros links ->. apply collect_links_filter.
  - intros ->. apply collect_links_raises.
Qed.

(** ** Enqueueing *)

(** X15. Enqueueing the links of a page leaves the pending URLs where they
    are and appends new ones behind them, in the order of the links: each
    appended URL is a link that was neither visited nor pending, none is
    appended twice, and every link that was not visited is in the queue
    afterwards. *)
Theorem enqueue_links_appends (visited : gset string) (queue links : list string) :
  exists new,
    enqueue_links visited queue links = queue ++ new
    /\ new `sublist_of` links
    /\ NoDup new
    /\ (forall url, url ∈ new -> (url ∉ visited) /\ (url ∉ queue))
    /\ (forall url, url ∈ links -> url ∉ visited ->
                    url ∈ enqueue_links visited queue links).
Proof.
  revert queue. induction links as [|l links IH]; intros queue; simpl.
  - exists []. rewrite app_nil_r. split_and!; [done|done|constructor| |];
      intros url Hin; by apply elem_of_nil in Hin.
  - destruct (bool_decide (l ∉ visited) && bool_decide (l ∉ queue)) eqn:Hadd.
    + apply andb_prop in Hadd as [Hv%bool_decide_eq_true Hq%bool_decide_eq_true].
      destruct (IH (queue ++ [l])) as (new & Heq & Hsub & Hnd & Hnew & Hall).
      exists (l :: new). split_and!.
      * by rewrite Heq, <- app_assoc.
      * by apply sublist_skip.
      * apply NoDup_cons. split; [|done]. intros Hin. apply Hnew in Hin as [_ Hin].
        apply Hin, elem_of_app. right. by left.
      * intros url [-> |Hin]%elem_of_cons; [done|].
        apply Hnew in Hin as [? Hin]. split; [done|].
        intros ?. apply Hin, elem_of_app. by left.
      * intros url [-> |Hin]%elem_of_cons Hnv; [|by apply Hall].
        rewrite Heq, <- app_assoc. apply elem_of_app. right. by left.
    + destruct (IH queue) as (new & Heq & Hsub & Hnd & Hnew & Hall).
      exists new. split_and!; [done|by apply sublist_cons|done|done|].
      intros url [-> |Hin]%elem_of_cons Hnv; [|by apply Hall].
      rewrite Heq. apply elem_of_app. left.
      apply andb_false_iff in Hadd as [Hv%bool_decide_eq_false|Hq%bool_decide_eq_false];
        [done|]. by apply dec_stable.
Qed.

(** ** The classifier *)




(** * The further properties at work on the concrete sites *)

Import MoreScenarios.

Lemma content_comes_from_its_page_witness :
  get_page_content static_site "http://example.com/" (fresh "http://example.com/" true)
    = (Return (Some "<a href=guide.html>next</a>"),
       (get_page_content static_site "http://example.com/"
          (fresh "http://example.com/" true)).2)
  /\ (requests_get static_site (log (fresh "http://example.com/" true))
        "http://example.com/" = Response 200 "<a href=guide.html>next</a>"
      \/ exists l,
           driver_get static_site l "http://example.com/"
             = Some "<a href=guide.html>next</a>"
           /\ log (get_page_content static_site "http://example.com/"
                     (fresh "http://example.com/" true)).2
              = l ++ [DriverGet "http://example.com/" true]).
Proof.
  assert (Hget :
    get_page_content static_site "http://example.com/" (fresh "http://example.com/" true)
      = (Return (Some "<a href=guide.html>next</a>"),
         (get_page_content static_site "http://example.com/"
            (fresh "http://example.com/" true)).2)).
  { vm_compute. reflexivity. }
  split; [exact Hget|].
  exact (content_comes_from_its_page static_site _ _ _ _ Hget).
Defined.

Lemma browser_pointed_at_one_page_witness :
  __init__ rendering_site "http://example.com/" true
    = Some (fresh "http://example.com/" true)
  /\ count driven
       (log (crawl rendering_site 3 None 0 (fresh "http://example.com/" true)).2) <= 1.
Proof.
  split; [reflexivity|].
  exact (proj1 (proj2 (browser_pointed_at_one_page rendering_site)
                  "http://example.com/" true (fresh "http://example.com/" true)
                  3 None eq_refl)).
Defined.

Lemma missing_selenium_aborts_witness :
  (forall l, selenium_import no_selenium l = false)
  /\ driver (fresh "http://example.com/" true) = None
  /\ tried_selenium (fresh "http://example.com/" true) = false
  /\ requests_get no_selenium (log (fresh "http://example.com/" true))
       "http://example.com/" = RequestException
  /\ queue (fresh "http://example.com/" true) = ["http://example.com/"]
  /\ within_budget None 0 = true
  /\ skip_url no_selenium (fresh "http://example.com/" true) "http://example.com/"
     = false
  /\ exists st',
       crawl no_selenium 1 None 0 (fresh "http://example.com/" true)
         = (Propagated ImportError, 0%Z, st')
       /\ rows (log st') = rows (log (fresh "http://example.com/" true))
       /\ fetched (log st')
          = fetched (log (fresh "http://example.com/" true)) ++ ["http://example.com/"].
Proof.
  split_and!; [done|reflexivity|reflexivity|reflexivity|reflexivity|reflexivity
              |by vm_compute|].
  apply (missing_selenium_aborts no_selenium (fresh "http://example.com/" true)
           "http://example.com/" [] 0 None 0);
    [done|reflexivity|reflexivity|by left|reflexivity|reflexivity|by vm_compute].
Defined.

Lemma queue_never_holds_visited_witness :
  __init__ static_site "http://example.com/" true
    = Some (fresh "http://example.com/" true)
  /\ NoDup (queue (crawl static_site 1 None 0 (fresh "http://example.com/" true)).2).
Proof.
  split; [reflexivity|].
  exact (proj1 (queue_never_holds_visited static_site "http://example.com/" true
                  (fresh "http://example.com/" true) 1 None eq_refl)).
Defined.

Lemma visited_is_what_was_requested_witness :
  __init__ static_site "http://example.com/" true
    = Some (fresh "http://example.com/" true)
  /\ ("http://example.com/guide.html"
        ∈ visited_urls (crawl static_site 2 None 0 (fresh "http://example.com/" true)).2
      <-> "http://example.com/guide.html"
            ∈ fetched (log (crawl static_site 2 None 0
                              (fresh "http://example.com/" true)).2)).
Proof.
  split; [reflexivity|].
  exact (visited_is_what_was_requested static_site "http://example.com/" true
           (fresh "http://example.com/" true) 2 None
           "http://example.com/guide.html" eq_refl).
Defined.

Lemma disallowed_url_never_requested_witness :
  robots_read guarded_site = true
  /\ __init__ guarded_site "http://example.com/" true
       = Some (fresh "http://example.com/" true)
  /\ robots_can_fetch guarded_site user_agent "http://example.com/b" = false
  /\ "http://example.com/b"
       ∉ fetched (log (crawl guarded_site 3 None 0 (fresh "http://example.com/" true)).2).
Proof.
  split_and!; [reflexivity|reflexivity|reflexivity|].
  exact (disallowed_url_never_requested guarded_site "http://example.com/"
           (fresh "http://example.com/" true) 3 None "http://example.com/b"
           eq_refl eq_refl eq_refl).
Defined.

Lemma ignoring_robots_skips_nothing_witness :
  __init__ guarded_site "http://example.com/" false
    = Some (fresh_ignoring_robots "http://example.com/" true)
  /\ robots_disallows guarded_site
       (crawl guarded_site 3 None 0 (fresh_ignoring_robots "http://example.com/" true)).2
       "http://example.com/b" = false.
Proof.
  split; [reflexivity|].
  exact (ignoring_robots_skips_nothing guarded_site "http://example.com/"
           (fresh_ignoring_robots "http://example.com/" true) 3 None
           "http://example.com/b" eq_refl).
Defined.

Lemma rows_follow_requests_witness :
  __init__ static_site "http://example.com/" true
    = Some (fresh "http://example.com/" true)
  /\ NoDup (rows (log (crawl static_site 3 None 0
                         (fresh "http://example.com/" true)).2)).*1.
Proof.
  split; [reflexivity|].
  exact (proj1 (proj2 (proj2 (rows_follow_requests static_site "http://example.com/"
                                true (fresh "http://example.com/" true) 3 None
                                eq_refl)))).
Defined.

Lemma budget_bounds_requests_witness :
  crawl static_site 5 (Some 1%Z) 0 (fresh "http://example.com/" true)
    = (Completed, 1%Z,
       (crawl static_site 5 (Some 1%Z) 0 (fresh "http://example.com/" true)).2)
  /\ length (fetched (log (crawl static_site 5 (Some 1%Z) 0
                             (fresh "http://example.com/" true)).2))
     <= length (fetched (log (fresh "http://example.com/" true))) + Z.to_nat (1 - 0).
Proof.
  assert (Hrun :
    crawl static_site 5 (Some 1%Z) 0 (fresh "http://example.com/" true)
      = (Completed, 1%Z,
         (crawl static_site 5 (Some 1%Z) 0 (fresh "http://example.com/" true)).2)).
  { vm_compute. reflexivity. }
  split; [exact Hrun|].
  exact (proj1 (budget_bounds_requests static_site 5 1 0 1 _ _ _ Hrun)).
Defined.

Lemma counter_is_number_of_requests_witness :
  __init__ static_site "http://example.com/" true
    = Some (fresh "http://example.com/" true)
  /\ length (rows (log (crawl static_site 3 None 0
                          (fresh "http://example.com/" true)).2))
     <= length (fetched (log (crawl static_site 3 None 0
                                (fresh "http://example.com/" true)).2)).
Proof.
  split; [reflexivity|].
  exact (proj2 (counter_is_number_of_requests static_site) "http://example.com/"
           true (fresh "http://example.com/" true) 3 None eq_refl).
Defined.

Lemma extract_links_is_a_filter_witness :
  PyStr.falsy "docs" = false
  /\ extract_links nested_site (fresh "http://example.com/" true) (Some "docs")
     = Some ["http://example.com/guide.html"]
  /\ ["http://example.com/guide.html"]
     = omap (kept_link nested_site (fresh "http://example.com/" true))
         (anchor_hrefs (bs_parse nested_site "docs")).
Proof.
  assert (Hlinks :
    extract_links nested_site (fresh "http://example.com/" true) (Some "docs")
      = Some ["http://example.com/guide.html"]).
  { vm_compute. reflexivity. }
  split_and!; [reflexivity|exact Hlinks|].
  exact (proj1 (extract_links_is_a_filter nested_site
                  (fresh "http://example.com/" true) "docs") _ eq_refl Hlinks).
Defined.


Lemma only_import_error_escapes_witness :
  get_page_content no_selenium "http://example.com/" (fresh "http://example.com/" true)
    = (Raise ImportError,
       (get_page_content no_selenium "http://example.com/"
          (fresh "http://example.com/" true)).2)
  /\ ImportError = ImportError
  /\ exists l,
       log (get_page_content no_selenium "http://example.com/"
              (fresh "http://example.com/" true)).2
       = l ++ [SeleniumImport false].
Proof.
  assert (Hget :
    get_page_content no_selenium "http://example.com/" (fresh "http://example.com/" true)
      = (Raise ImportError,
         (get_page_content no_selenium "http://example.com/"
            (fresh "http://example.com/" true)).2)).
  { vm_compute. reflexivity. }
  split; [exact Hget|].
  exact (only_import_error_escapes no_selenium _ _ _ _ Hget).
Defined.

Lemma enqueue_links_appends_witness :
  exists new,
    enqueue_links {["a"]} ["b"] ["a"; "c"; "b"; "c"] = ["b"] ++ new
    /\ new `sublist_of` ["a"; "c"; "b"; "c"]
    /\ NoDup new
    /\ (forall url, url ∈ new -> (url ∉ ({["a"]} : gset string)) /\ (url ∉ ["b"]))
    /\ (forall url, url ∈ ["a"; "c"; "b"; "c"] -> url ∉ ({["a"]} : gset string) ->
                    url ∈ enqueue_links {["a"]} ["b"] ["a"; "c"; "b"; "c"]).
Proof. exact (enqueue_links_appends {["a"]} ["b"] ["a"; "c"; "b"; "c"]). Defined.
